(** * Virtual Glucometer: the domain layer of [lab.py]

    A shallow embedding of the three domain classes of [lab.py] --
    [GlucoseAnalyzer], [DatabaseManager] and [StatisticsCalculator] -- and
    the properties of them that the design document states.

    Modelling conventions.
    - A Python number that holds a glucose value is an exact rational [Q]:
      every [int] and every finite [float] is one, and Python compares a
      float with an integer literal exactly.  The aggregate of
      [StatisticsCalculator] is given twice.  In [StatisticsCalculator]
      the arithmetic is the exact arithmetic of [Q]: the counts, the least
      and the greatest value are those of the source, and the mean, the
      median, the deviation, the range and the share in range are the
      exact quantities that the source rounds; the estimated A1C is
      computed on doubles, in [Binary64].  In [Float64] every number is the
      double that the source returns.
    - The wall clock is an input: every function that calls
      [datetime.now()] takes the current [datetime] as an argument.
    - The SQLite file is a value of type [database], threaded through the
      operations; a Python exception is a constructor of [outcome]. *)

From Stdlib Require Import List String Ascii Bool ZArith Lia.
From Stdlib Require Import QArith Qround Qpower Lqa.
From Stdlib Require Import Sorting.Sorted Sorting.Permutation.
From Stdlib Require Import Reals Qreals Lra.
From Stdlib Require PrimFloat SpecFloat FloatOps.
Import ListNotations.
Set Warnings "-inexact-float".
Open Scope string_scope.
Open Scope Q_scope.

(** ** Comparisons of Python numbers *)

Definition Qltb (x y : Q) : bool := negb (Qle_bool y x).
Definition Qleb (x y : Q) : bool := Qle_bool x y.

(** ** Generic list functions

    [sum(1 for v in values if p(v))], and a stable sort by a boolean order
    that stands for Python's [sorted] and for SQL's [ORDER BY]. *)

Section ListFunctions.

Context {A : Type}.

Fixpoint count_if (p : A -> bool) (l : list A) : nat :=
  match l with
  | [] => 0%nat
  | v :: l' => if p v then S (count_if p l') else count_if p l'
  end.

Variable le : A -> A -> bool.

Fixpoint insert_sorted (a : A) (l : list A) : list A :=
  match l with
  | [] => [a]
  | b :: l' => if le a b then a :: l else b :: insert_sorted a l'
  end.

Fixpoint sort (l : list A) : list A :=
  match l with
  | [] => []
  | a :: l' => insert_sorted a (sort l')
  end.

End ListFunctions.

(** ** The calendar of [datetime]

    [datetime.py] keeps a date as year, month and day and goes through the
    proleptic Gregorian ordinal (day 1 is 0001-01-01) for arithmetic.  The
    functions below are the library's [_is_leap], [_days_before_year],
    [_days_before_month], [_ymd2ord] and [_ord2ymd].  The calendar is taken
    unbounded: the library's limits on the year (1 to 9999), beyond which
    its arithmetic raises [OverflowError], are not part of the model. *)

Module Calendar.

Local Open Scope Z_scope.

Record datetime : Type := mk_datetime {
  year : Z; month : Z; day : Z;
  hour : Z; minute : Z; second : Z
}.

Definition is_leap (y : Z) : bool :=
  (y mod 4 =? 0) && (negb (y mod 100 =? 0) || (y mod 400 =? 0)).

Definition days_before_year (y : Z) : Z :=
  let y' := y - 1 in y' * 365 + y' / 4 - y' / 100 + y' / 400.

Definition DAYS_IN_MONTH : list Z :=
  [-1; 31; 28; 31; 30; 31; 30; 31; 31; 30; 31; 30; 31].

Definition DAYS_BEFORE_MONTH : list Z :=
  [-1; 0; 31; 59; 90; 120; 151; 181; 212; 243; 273; 304; 334].

Definition b2z (b : bool) : Z := if b then 1 else 0.

Definition days_before_month (y m : Z) : Z :=
  nth (Z.to_nat m) DAYS_BEFORE_MONTH 0 + b2z ((2 <? m) && is_leap y).

Definition ymd2ord (y m d : Z) : Z :=
  days_before_year y + days_before_month y m + d.

Definition DI400Y : Z := days_before_year 401.
Definition DI100Y : Z := days_before_year 101.
Definition DI4Y : Z := days_before_year 5.

Definition ord2ymd (n0 : Z) : Z * Z * Z :=
  let n := n0 - 1 in
  let n400 := n / DI400Y in let n := n mod DI400Y in
  let y := n400 * 400 + 1 in
  let n100 := n / DI100Y in let n := n mod DI100Y in
  let n4 := n / DI4Y in let n := n mod DI4Y in
  let n1 := n / 365 in let n := n mod 365 in
  let y := y + n100 * 100 + n4 * 4 + n1 in
  if (n1 =? 4) || (n100 =? 4) then (y - 1, 12, 31)
  else
    let leapyear := (n1 =? 3) && (negb (n4 =? 24) || (n100 =? 3)) in
    let m := Z.shiftr (n + 50) 5 in
    let preceding := nth (Z.to_nat m) DAYS_BEFORE_MONTH 0
                     + b2z ((2 <? m) && leapyear) in
    if n <? preceding then
      let m := m - 1 in
      let preceding := preceding
                       - (nth (Z.to_nat m) DAYS_IN_MONTH 0
                          + b2z ((m =? 2) && leapyear)) in
      (y, m, n - preceding + 1)
    else (y, m, n - preceding + 1).

(** [dt - timedelta(days=d)]: the date moves, the time of day stays. *)
Definition sub_days (dt : datetime) (d : Z) : datetime :=
  let '(y, m, dd) := ord2ymd (ymd2ord (year dt) (month dt) (day dt) - d) in
  mk_datetime y m dd (hour dt) (minute dt) (second dt).

(** Decimal digits of a number, padded with zeros to a width. *)
Definition digit (n : Z) : ascii := ascii_of_nat (48 + Z.to_nat (n mod 10)).

Fixpoint digits (width : nat) (n : Z) (acc : string) : string :=
  match width with
  | O => acc
  | S w => digits w (n / 10) (String (digit n) acc)
  end.

Definition pad (width : nat) (n : Z) : string := digits width n "".

(** [strftime("%Y-%m-%d")] *)
Definition strftime_date (dt : datetime) : string :=
  (pad 4 (year dt) ++ "-" ++ pad 2 (month dt) ++ "-" ++ pad 2 (day dt))%string.

(** [strftime("%Y-%m-%d %H:%M:%S")] *)
Definition strftime_datetime (dt : datetime) : string :=
  (strftime_date dt ++ " " ++ pad 2 (hour dt) ++ ":" ++ pad 2 (minute dt)
     ++ ":" ++ pad 2 (second dt))%string.

End Calendar.

(** ** Dates

    What a date is, the day that follows it and the number that a text of
    digits denotes, to say what [ymd2ord], [ord2ymd] and [strftime] do. *)

Module Gregorian.

Import Calendar.
Local Open Scope Z_scope.

(** [datetime.py]'s [_days_in_month]. *)
Definition days_in_month (y m : Z) : Z :=
  if (m =? 2) && is_leap y then 29 else nth (Z.to_nat m) DAYS_IN_MONTH 0.

(** The triples that [date(y, m, d)] accepts, the limits on the year
    apart. *)
Definition valid_date (ymd : Z * Z * Z) : bool :=
  let '(y, m, d) := ymd in
  (1 <=? m) && (m <=? 12) && (1 <=? d) && (d <=? days_in_month y m).

(** The day after a date. *)
Definition next_day (ymd : Z * Z * Z) : Z * Z * Z :=
  let '(y, m, d) := ymd in
  if d <? days_in_month y m then (y, m, d + 1)
  else if m <? 12 then (y, m + 1, 1) else (y + 1, 1, 1).

Definition date_of (dt : datetime) : Z * Z * Z := (year dt, month dt, day dt).

Definition toordinal (ymd : Z * Z * Z) : Z :=
  let '(y, m, d) := ymd in ymd2ord y m d.

(** Walks [fuel] days from the date [ymd] and the ordinal [n], and tests
    at each day that [ord2ymd] takes the ordinal to the date. *)
Fixpoint days_agree (fuel : nat) (n : Z) (ymd : Z * Z * Z) : bool :=
  match fuel with
  | O => true
  | S fuel' =>
      (let '(y, m, d) := ymd in
       let '(y', m', d') := ord2ymd n in
       (y' =? y) && (m' =? m) && (d' =? d))
      && days_agree fuel' (n + 1) (next_day ymd)
  end.

(** The same date [q] cycles of 400 years later. *)
Definition shift_years (q : Z) (ymd : Z * Z * Z) : Z * Z * Z :=
  let '(y, m, d) := ymd in (y + 400 * q, m, d).

(** The number that a text of decimal digits denotes. *)
Definition digit_value (c : ascii) : Z := Z.of_nat (nat_of_ascii c) - 48.

Fixpoint read_digits (s : string) (acc : Z) : Z :=
  match s with
  | EmptyString => acc
  | String c s' => read_digits s' (acc * 10 + digit_value c)
  end.

Definition int (s : string) : Z := read_digits s 0.

End Gregorian.

(** ** [class GlucoseAnalyzer] *)

Module GlucoseAnalyzer.

Definition CRITICAL_LOW : Q := 54.
Definition WARNING_LOW : Q := 70.
Definition NORMAL_LOW : Q := 70.
Definition NORMAL_HIGH : Q := 140.
Definition WARNING_HIGH : Q := 180.

(** The dictionary that [analyze] returns. *)
Record result : Type := mk_result {
  value : Q;
  timestamp : string;
  status : string;
  color : string;
  severity : string;
  message : string;
  alarm : bool
}.

Definition analyze (now : Calendar.datetime) (glucose_value : Q) : result :=
  let ts := Calendar.strftime_datetime now in
  if Qltb glucose_value CRITICAL_LOW then
    mk_result glucose_value ts "CRITICAL LOW" "#FF4444" "critical"
      "⚠️ CRITICAL: Severe Hypoglycemia! Immediate action required!" true
  else if Qltb glucose_value WARNING_LOW then
    mk_result glucose_value ts "WARNING LOW" "#FFA500" "warning"
      "⚠️ WARNING: Low glucose level detected." true
  else if Qleb glucose_value NORMAL_HIGH then
    mk_result glucose_value ts "NORMAL" "#4CAF50" "normal"
      "✓ Glucose level is within normal range." false
  else if Qleb glucose_value WARNING_HIGH then
    mk_result glucose_value ts "WARNING HIGH" "#FFA500" "warning"
      "⚠️ WARNING: Elevated glucose level detected." true
  else
    mk_result glucose_value ts "CRITICAL HIGH" "#FF4444" "critical"
      "⚠️ CRITICAL: Severe Hyperglycemia! Immediate action required!" true.

End GlucoseAnalyzer.

(** ** [class DatabaseManager]

    The SQLite file is a [database]: the rows of the three tables in rowid
    order and, for each, the counter that [AUTOINCREMENT] keeps in
    [sqlite_sequence].  A statement that violates a constraint raises
    [sqlite3.IntegrityError] and changes nothing. *)

Module DatabaseManager.

Record patient : Type := mk_patient {
  p_id : Z;
  p_name : string;
  p_age : Z;
  p_diabetes_type : string;
  p_target_min : Q;
  p_target_max : Q;
  p_created_date : string
}.

Record reading : Type := mk_reading {
  r_id : Z;
  r_patient_id : Z;
  r_glucose_value : Q;
  r_status : string;
  r_condition : string;
  r_timestamp : string
}.

Record goal : Type := mk_goal {
  g_id : Z;
  g_patient_id : Z;
  g_goal_type : string;
  g_target_value : Q;
  g_current_value : Q;
  g_start_date : string;
  g_end_date : string;
  g_achieved : Z
}.

Record database : Type := mk_database {
  patients : list patient;
  readings : list reading;
  goals : list goal;
  patients_seq : Z;
  readings_seq : Z;
  goals_seq : Z
}.

Inductive outcome (A : Type) : Type :=
| Ok (a : A)
| IntegrityError.
Arguments Ok {A} a.
Arguments IntegrityError {A}.

(** A connection as [sqlite3.connect] returns it.  SQLite checks the
    [FOREIGN KEY] clauses of a schema only on a connection that has run
    [PRAGMA foreign_keys = ON]; [lab.py] never runs it. *)
Record connection : Type := mk_connection {
  foreign_keys : bool
}.

Definition connect : connection := mk_connection false.

(** [init_database]: each [CREATE TABLE IF NOT EXISTS] makes an empty table
    in a new file and leaves an existing one alone. *)
Definition empty_database : database := mk_database [] [] [] 0 0 0.

Definition init_database (file : option database) : database :=
  match file with
  | Some db => db
  | None => empty_database
  end.

Definition patient_exists (db : database) (patient_id : Z) : bool :=
  existsb (fun p => (p_id p =? patient_id)%Z) (patients db).

Definition name_taken (db : database) (name : string) : bool :=
  existsb (fun p => (p_name p =? name)%string) (patients db).

(** [INSERT INTO patients (name, age, diabetes_type, created_date)]: the
    column [name] is [UNIQUE], the targets take their defaults, and the
    statement's [lastrowid] comes back with the new state. *)
Definition insert_patient (db : database)
    (name : string) (age : Z) (diabetes_type created_date : string)
    : outcome (database * Z) :=
  if name_taken db name then IntegrityError
  else
    let id := (patients_seq db + 1)%Z in
    Ok (mk_database
          (patients db
             ++ [mk_patient id name age diabetes_type 70 140 created_date])
          (readings db) (goals db)
          id (readings_seq db) (goals_seq db),
        id).

(** [INSERT INTO readings (...)]: [patient_id REFERENCES patients(id)]. *)
Definition insert_reading (conn : connection) (db : database)
    (patient_id : Z) (glucose_value : Q) (status condition timestamp : string)
    : outcome database :=
  if foreign_keys conn && negb (patient_exists db patient_id)
  then IntegrityError
  else
    let id := (readings_seq db + 1)%Z in
    Ok (mk_database (patients db)
          (readings db
             ++ [mk_reading id patient_id glucose_value status condition
                   timestamp])
          (goals db)
          (patients_seq db) id (goals_seq db)).

(** [INSERT INTO goals (patient_id, goal_type, target_value, current_value,
    start_date, end_date)]: [achieved] takes its default, 0. *)
Definition insert_goal (conn : connection) (db : database)
    (patient_id : Z) (goal_type : string) (target_value current_value : Q)
    (start_date end_date : string) : outcome database :=
  if foreign_keys conn && negb (patient_exists db patient_id)
  then IntegrityError
  else
    let id := (goals_seq db + 1)%Z in
    Ok (mk_database (patients db) (readings db)
          (goals db
             ++ [mk_goal id patient_id goal_type target_value current_value
                   start_date end_date 0])
          (patients_seq db) (readings_seq db) id).

(** The methods of the class. *)

Definition add_patient (db : database) (now : Calendar.datetime)
    (name : string) (age : Z) (diabetes_type : string)
    : database * option Z :=
  match insert_patient db name age diabetes_type
          (Calendar.strftime_datetime now) with
  | Ok (db', patient_id) => (db', Some patient_id)
  | IntegrityError => (db, None)
  end.

Definition get_patients (db : database) : list patient := patients db.

Definition get_patient_by_name (db : database) (name : string)
    : option patient :=
  find (fun p => (p_name p =? name)%string) (patients db).

Definition update_patient_targets (db : database) (patient_id : Z)
    (target_min target_max : Q) : database :=
  mk_database
    (map (fun p =>
            if (p_id p =? patient_id)%Z
            then mk_patient (p_id p) (p_name p) (p_age p) (p_diabetes_type p)
                   target_min target_max (p_created_date p)
            else p)
       (patients db))
    (readings db) (goals db)
    (patients_seq db) (readings_seq db) (goals_seq db).

Definition add_reading (db : database) (patient_id : Z) (glucose_value : Q)
    (status condition timestamp : string) : outcome database :=
  insert_reading connect db patient_id glucose_value status condition
    timestamp.

(** [ORDER BY timestamp DESC]; text compares byte by byte. *)
Definition timestamp_desc (a b : reading) : bool :=
  String.leb (r_timestamp b) (r_timestamp a).

(** [if days:] is taken when [days] was given and is not 0; [None] stands
    for a call that leaves [days] out. *)
Definition truthy (days : option Z) : bool :=
  match days with
  | Some d => negb (d =? 0)%Z
  | None => false
  end.

Definition days_of (days : option Z) : Z :=
  match days with
  | Some d => d
  | None => 0%Z
  end.

Definition get_readings (db : database) (now : Calendar.datetime)
    (patient_id : Z) (days : option Z) : list reading :=
  if truthy days then
    let cutoff_date :=
      Calendar.strftime_date (Calendar.sub_days now (days_of days)) in
    sort timestamp_desc
      (filter (fun r => (r_patient_id r =? patient_id)%Z
                        && String.leb cutoff_date (r_timestamp r))
         (readings db))
  else
    sort timestamp_desc
      (filter (fun r => (r_patient_id r =? patient_id)%Z) (readings db)).

Definition add_goal (db : database) (patient_id : Z) (goal_type : string)
    (target_value : Q) (start_date end_date : string) : outcome database :=
  insert_goal connect db patient_id goal_type target_value 0
    start_date end_date.

Definition get_goals (db : database) (patient_id : Z) : list goal :=
  filter (fun g => (g_patient_id g =? patient_id)%Z) (goals db).

(** [SET current_value = ?, achieved = ?] on one row.  ([achieved] is 0
    when the caller leaves it out.) *)
Definition with_progress (g : goal) (current_value : Q) (achieved : Z)
    : goal :=
  mk_goal (g_id g) (g_patient_id g) (g_goal_type g) (g_target_value g)
    current_value (g_start_date g) (g_end_date g) achieved.

Definition update_goal_progress (db : database) (goal_id : Z)
    (current_value : Q) (achieved : Z) : database :=
  mk_database (patients db) (readings db)
    (map (fun g =>
            if (g_id g =? goal_id)%Z
            then with_progress g current_value achieved
            else g)
       (goals db))
    (patients_seq db) (readings_seq db) (goals_seq db).

End DatabaseManager.

(** ** Python's numbers and library functions

    A call either returns or raises. *)

Inductive py_result (A : Type) : Type :=
| Returns (a : A)
| Raises.
Arguments Returns {A} a.
Arguments Raises {A}.

Definition bind {A B : Type} (m : py_result A) (f : A -> py_result B)
    : py_result B :=
  match m with
  | Returns a => f a
  | Raises => Raises
  end.

Notation "x <- m ;; k" := (bind m (fun x => k))
  (at level 61, m at next level, right associativity).

Definition Qsum (l : list Q) : Q := fold_right Qplus 0 l.

Definition Qnat (n : nat) : Q := inject_Z (Z.of_nat n).

(** [a / b] on numbers: [ZeroDivisionError] when [b] is 0. *)
Definition true_div (a b : Q) : py_result Q :=
  if Qeq_bool b 0 then Raises else Returns (a / b).

(** The builtins [min] and [max]: [ValueError] on an empty sequence,
    otherwise the first of the least (greatest) elements. *)
Definition py_min (l : list Q) : py_result Q :=
  match l with
  | [] => Raises
  | v :: l' => Returns (fold_left (fun m x => if Qltb x m then x else m) l' v)
  end.

Definition py_max (l : list Q) : py_result Q :=
  match l with
  | [] => Raises
  | v :: l' => Returns (fold_left (fun m x => if Qltb m x then x else m) l' v)
  end.

(** The module [statistics] of the Python library, in exact arithmetic. *)
Module statistics.

Definition mean (data : list Q) : py_result Q :=
  match data with
  | [] => Raises
  | _ :: _ => Returns (Qsum data / Qnat (List.length data))
  end.

Definition median (data : list Q) : py_result Q :=
  let data := sort Qleb data in
  let n := List.length data in
  if (n =? 0)%nat then Raises
  else if (n mod 2 =? 1)%nat then Returns (nth (n / 2) data 0)
  else
    let i := (n / 2)%nat in
    Returns ((nth (i - 1) data 0 + nth i data 0) / 2).

(** The sum of the squared deviations from the mean, over [n - 1]. *)
Definition variance (data : list Q) : py_result Q :=
  if (List.length data <? 2)%nat then Raises
  else
    xbar <- mean data ;;
    let ss := Qsum (map (fun x => (x - xbar) * (x - xbar)) data) in
    Returns (ss / (Qnat (List.length data) - 1)).

Definition stdev (data : list Q) : py_result R :=
  var <- variance data ;;
  Returns (sqrt (Q2R var)).

End statistics.

(** ** Binary64

    [round(x, 1)] works on the double [x] that the two operations of
    [(average + 46.7) / 28.7] produce, so that line is evaluated with the
    kernel's binary64 numbers.  [float_of_Q] is [float(Fraction)], the
    double nearest to a rational; [Q_of_finite] is the exact value of a
    finite double. *)

Module Binary64.

Import PrimFloat SpecFloat FloatOps.

(** [(average + 46.7) / 28.7] on doubles. *)
Definition a1c_quotient (average : float) : float :=
  ((average + 46.7) / 28.7)%float.

Definition float_of_Q (q : Q) : float :=
  match Qnum q with
  | Z0 => 0%float
  | Zpos n =>
      SF2Prim (SFdiv prec emax (S754_finite false n 0)
                 (S754_finite false (Qden q) 0))
  | Zneg n =>
      SF2Prim (SFdiv prec emax (S754_finite true n 0)
                 (S754_finite false (Qden q) 0))
  end.

Definition Q_of_finite (s : bool) (m : positive) (e : Z) : Q :=
  inject_Z (if s then Zneg m else Zpos m) * Qpower 2 e.

(** The integer nearest to [q]; of two equally near, the even one. *)
Definition round_half_even (q : Q) : Z :=
  let f := Qfloor q in
  match Qcompare (q - inject_Z f) (1 # 2) with
  | Lt => f
  | Gt => (f + 1)%Z
  | Eq => if Z.even f then f else (f + 1)%Z
  end.

(** [round(x, 1)] on a float: the double nearest to the decimal with one
    digit after the point that is nearest to [x]; a zero keeps the sign of
    [x]; zeros, infinities and NaN round to themselves. *)
Definition round1 (x : float) : float :=
  match Prim2SF x with
  | S754_finite s m e =>
      let k := round_half_even (Q_of_finite s m e * 10) in
      if (k =? 0)%Z then (if s then (-0)%float else 0%float)
      else float_of_Q (inject_Z k / 10)
  | _ => x
  end.

End Binary64.

(** ** [class StatisticsCalculator]

    In exact arithmetic: what the statements on counts, order and bounds
    are made on.  The doubles that the source returns for [average],
    [median], [std_dev], [range] and [time_in_range] are those of
    [Float64] below. *)

Module StatisticsCalculator.

Import DatabaseManager.

(** The dictionary [stats]. *)
Record stats : Type := mk_stats {
  count : nat;
  average : Q;
  median : Q;
  std_dev : R;
  min : Q;
  max : Q;
  range : Q;
  time_in_range : Q;
  estimated_a1c : PrimFloat.float;
  critical_low : nat;
  warning_low : nat;
  normal : nat;
  warning_high : nat;
  critical_high : nat
}.

Definition calculate_statistics (readings : list reading)
    : py_result (option stats) :=
  match readings with
  | [] => Returns None
  | _ :: _ =>
      let values := map r_glucose_value readings in
      average <- statistics.mean values ;;
      median <- statistics.median values ;;
      std_dev <- (if (1 <? List.length values)%nat
                  then statistics.stdev values else Returns 0%R) ;;
      min <- py_min values ;;
      max <- py_max values ;;
      let range := max - min in
      let normal_count :=
        count_if (fun v => Qleb 70 v && Qleb v 140) values in
      ratio <- true_div (Qnat normal_count) (Qnat (List.length values)) ;;
      let time_in_range := ratio * 100 in
      let estimated_a1c :=
        Binary64.round1
          (Binary64.a1c_quotient (Binary64.float_of_Q average)) in
      Returns (Some (mk_stats
        (List.length values) average median std_dev min max range
        time_in_range estimated_a1c
        (count_if (fun v => Qltb v 54) values)
        (count_if (fun v => Qleb 54 v && Qltb v 70) values)
        normal_count
        (count_if (fun v => Qltb 140 v && Qleb v 180) values)
        (count_if (fun v => Qltb 180 v) values)))
  end.

End StatisticsCalculator.

(** ** The doubles of the aggregate

    [calculate_statistics] once more, with every number the binary64 value
    that the interpreter holds.  A stored value is a double; its exact value
    is the rational of the reading, and [float_of_Q] gives the double back.
    Comparisons, [sorted], [min] and [max] are exact on doubles and are
    made on the rationals.  What rounds is
    - [statistics.mean]: the exact sum over the count, converted once;
    - [statistics.median] of an even number of values: one addition and one
      division of doubles;
    - [statistics.stdev]: the exact sum of squares of the deviations over
      [n - 1], then [_float_sqrt_of_frac] (the library as of CPython 3.11);
    - [max_val - min_val], [normal_count / len(values)] and [... * 100].
    The [int] 0 that the source returns as [std_dev] for one value is the
    double 0. *)

Module Float64.

Import DatabaseManager.
Import PrimFloat SpecFloat FloatOps.

(** [float(Fraction)], and the double of a stored value. *)
Definition of_Q : Q -> float := Binary64.float_of_Q.

(** [a / b] on two [int]: the double nearest to the quotient. *)
Definition int_true_div (a b : Z) : py_result float :=
  if (b =? 0)%Z then Raises else Returns (of_Q (inject_Z a / inject_Z b)).

(** [int.bit_length] *)
Definition bit_length (n : Z) : Z :=
  if (n =? 0)%Z then 0%Z else (Z.log2 (Z.abs n) + 1)%Z.

(** [_integer_sqrt_of_frac_rto]: the root of [n / m] as an integer, rounded
    to odd. *)
Definition integer_sqrt_of_frac_rto (n m : Z) : Z :=
  let a := Z.sqrt (n / m) in
  Z.lor a (if (a * a * m =? n)%Z then 0 else 1).

Definition sqrt_bit_width : Z := 2 * 53 + 3.

(** [_float_sqrt_of_frac] *)
Definition float_sqrt_of_frac (n m : Z) : py_result float :=
  let q := ((bit_length n - bit_length m - sqrt_bit_width) / 2)%Z in
  if (0 <=? q)%Z then
    let numerator :=
      Z.shiftl (integer_sqrt_of_frac_rto n (Z.shiftl m (2 * q))) q in
    int_true_div numerator 1
  else
    let numerator := integer_sqrt_of_frac_rto (Z.shiftl n (-2 * q)) m in
    let denominator := Z.shiftl 1 (- q) in
    int_true_div numerator denominator.

Module statistics.

(** [statistics.mean] *)
Definition mean (data : list Q) : py_result float :=
  match data with
  | [] => Raises
  | _ :: _ => Returns (of_Q (Qsum data / Qnat (List.length data)))
  end.

(** [statistics.median] *)
Definition median (data : list Q) : py_result float :=
  let data := sort Qleb data in
  let n := List.length data in
  if (n =? 0)%nat then Raises
  else if (n mod 2 =? 1)%nat then Returns (of_Q (nth (n / 2) data 0))
  else
    let i := (n / 2)%nat in
    let below := of_Q (nth (i - 1) data 0) in
    let above := of_Q (nth i data 0) in
    Returns ((below + above) / 2)%float.

(** [statistics.stdev]: [_ss] gives the exact sum of the squared deviations
    as [(count * sxx - sx * sx) / count]; a [Fraction] is kept in lowest
    terms. *)
Definition stdev (data : list Q) : py_result float :=
  let n := List.length data in
  if (n <? 2)%nat then Raises
  else
    let sx := Qsum data in
    let sxx := Qsum (map (fun x => x * x) data) in
    let ssd := (Qnat n * sxx - sx * sx) / Qnat n in
    let mss := Qred (ssd / (Qnat n - 1)) in
    float_sqrt_of_frac (Qnum mss) (Zpos (Qden mss)).

End statistics.

(** The dictionary [stats], every number a double. *)
Record stats : Type := mk_stats {
  count : nat;
  average : float;
  median : float;
  std_dev : float;
  min : float;
  max : float;
  range : float;
  time_in_range : float;
  estimated_a1c : float;
  critical_low : nat;
  warning_low : nat;
  normal : nat;
  warning_high : nat;
  critical_high : nat
}.

Definition calculate_statistics (readings : list reading)
    : py_result (option stats) :=
  match readings with
  | [] => Returns None
  | _ :: _ =>
      let values := map r_glucose_value readings in
      average <- statistics.mean values ;;
      median <- statistics.median values ;;
      std_dev <- (if (1 <? List.length values)%nat
                  then statistics.stdev values else Returns 0%float) ;;
      min_val <- py_min values ;;
      max_val <- py_max values ;;
      let range := (of_Q max_val - of_Q min_val)%float in
      let normal_count :=
        count_if (fun v => Qleb 70 v && Qleb v 140) values in
      ratio <- int_true_div (Z.of_nat normal_count)
                 (Z.of_nat (List.length values)) ;;
      let time_in_range := (ratio * 100)%float in
      let estimated_a1c := Binary64.round1 (Binary64.a1c_quotient average) in
      Returns (Some (mk_stats
        (List.length values) average median std_dev
        (of_Q min_val) (of_Q max_val) range
        time_in_range estimated_a1c
        (count_if (fun v => Qltb v 54) values)
        (count_if (fun v => Qleb 54 v && Qltb v 70) values)
        normal_count
        (count_if (fun v => Qltb 140 v && Qleb v 180) values)
        (count_if (fun v => Qltb 180 v) values)))
  end.

(** The quantities of the design document on doubles: the middle value
    of a sorted list or the mean of its two middle values, and the root of
    a fraction as the library takes it. *)
Definition middle (l : list Q) : float :=
  let n := List.length l in
  if Nat.odd n then of_Q (nth (n / 2) l 0)
  else
    let below := of_Q (nth (n / 2 - 1) l 0) in
    let above := of_Q (nth (n / 2) l 0) in
    ((below + above) / 2)%float.

Definition sqrt_of_Q (q : Q) : py_result float :=
  float_sqrt_of_frac (Qnum (Qred q)) (Zpos (Qden (Qred q))).

End Float64.

(** ** The design document's own definitions

    Definitions that follow the words of the design document, to be
    compared with the ones above. *)

Module Spec.

(** The threshold table of section 4.1: a condition on the value and the
    status, severity and alarm flag of its row. *)
Definition threshold_table : list ((Q -> bool) * (string * string * bool)) :=
  [ (fun v => Qltb v 54,               ("CRITICAL LOW", "critical", true));
    (fun v => Qleb 54 v && Qltb v 70,  ("WARNING LOW", "warning", true));
    (fun v => Qleb 70 v && Qleb v 140, ("NORMAL", "normal", false));
    (fun v => Qltb 140 v && Qleb v 180, ("WARNING HIGH", "warning", true));
    (fun v => Qltb 180 v,              ("CRITICAL HIGH", "critical", true)) ].

(** Top-down, first match wins. *)
Fixpoint first_match {B : Type} (table : list ((Q -> bool) * B)) (v : Q)
    : option B :=
  match table with
  | [] => None
  | (cond, row) :: table' => if cond v then Some row else first_match table' v
  end.

Definition mean (V : list Q) : Q := Qsum V / Qnat (List.length V).


(** The middle value of a sorted list, or the mean of its two middle
    values. *)
Definition middle (l : list Q) : Q :=
  let n := List.length l in
  if Nat.odd n then nth (n / 2) l 0
  else (nth (n / 2 - 1) l 0 + nth (n / 2) l 0) / 2.

(** The sample variance, with the convention for a single value. *)
Definition sample_variance (V : list Q) : Q :=
  if (List.length V =? 1)%nat then 0
  else Qsum (map (fun v => (v - mean V) * (v - mean V)) V)
       / (Qnat (List.length V) - 1).

Definition in_range (v : Q) : bool := Qleb 70 v && Qleb v 140.

Definition time_in_range (V : list Q) : Q :=
  Qnat (List.length (filter in_range V)) / Qnat (List.length V) * 100.

(** Rounding to one decimal place, a tie going to the upper neighbour. *)
Definition round_half_up1 (q : Q) : Q :=
  inject_Z (Qfloor (q * 10 + (1 # 2))) / 10.

Definition estimated_a1c (V : list Q) : Q :=
  round_half_up1 ((mean V + 46.7) / 28.7).

(** The integer [k] is nearest to [t]; of two equally near, it is the
    even one. *)
Definition nearest_ties_even (t : Q) (k : Z) : Prop :=
  (inject_Z k - (1 # 2) < t /\ t < inject_Z k + (1 # 2)) \/
  ((t == inject_Z k - (1 # 2) \/ t == inject_Z k + (1 # 2)) /\
   Z.even k = true).

(** Ordered by timestamp, descending. *)
Definition newest_first (a b : DatabaseManager.reading) : Prop :=
  String.leb (DatabaseManager.r_timestamp b) (DatabaseManager.r_timestamp a)
  = true.

End Spec.

(** ** Sample data *)

Module Examples.

Import Calendar DatabaseManager.

Definition now0 : datetime := mk_datetime 2024 3 15 9 5 7.

Definition reading_of_value (v : Q) : reading :=
  mk_reading 0 1 v (GlucoseAnalyzer.status (GlucoseAnalyzer.analyze now0 v))
    "Fasting" (strftime_datetime now0).

Definition five_readings : list reading :=
  map reading_of_value [100; 120; 140; 160; 180].

Definition tie_reading : list reading := [reading_of_value 161.375].

Definition alice_db : database :=
  fst (add_patient empty_database now0 "Alice" 30 "Type 1").

Definition old_reading : reading :=
  mk_reading 1 1 95 "NORMAL" "Fasting" "2024-02-13 23:59:59".

Definition recent_reading : reading :=
  mk_reading 2 1 150 "WARNING HIGH" "After Meal" "2024-02-14 00:00:00".

Definition goal_db : database :=
  match add_goal alice_db 1 "Time in Range" 80 "2024-03-15" "2024-04-14" with
  | Ok db => db
  | IntegrityError => alice_db
  end.

Definition window_db : database :=
  mk_database (patients alice_db) [old_reading; recent_reading] [] 1 2 0.

End Examples.

(** ** Readings whose aggregate shows the rounding *)

Module Rounding.

(** The mean of 100, 101 and 200 is 401/3. *)
Definition three_readings : list DatabaseManager.reading :=
  map Examples.reading_of_value [100; 101; 200].

(** 7 readings of 25 are within 70 and 140. *)
Definition seven_of_25 : list DatabaseManager.reading :=
  map Examples.reading_of_value (repeat 100 7 ++ repeat 200 18)%list.

End Rounding.

(** ** [class TrendPlotWidget]: the data of the plot

    The widget keeps the values it plots and their x coordinates in two
    lists; [update_plot] reads them and changes neither.  What it hands to
    matplotlib is returned here as a value. *)

Module TrendPlotWidget.

Record state : Type := mk_state {
  glucose_values : list Q;
  timestamps : list Z;
  max_points : Z
}.

(** [__init__] *)
Definition init : state := mk_state [] [] 20.

Definition len {A : Type} (l : list A) : Z := Z.of_nat (List.length l).

(** [add_reading]: both lists have just been appended to when [pop(0)]
    runs, so it finds an element. *)
Definition add_reading (w : state) (glucose_value : Q) : state :=
  let values := (glucose_values w ++ [glucose_value])%list in
  let stamps := (timestamps w ++ [len values])%list in
  if (max_points w <? len values)%Z
  then mk_state (tl values) (tl stamps) (max_points w)
  else mk_state values stamps (max_points w).

Definition clear_plot (w : state) : state := mk_state [] [] (max_points w).

(** The colour of a point in [update_plot]. *)
Definition point_color (val : Q) : string :=
  if Qltb val 50 || Qltb 180 val then "#FF4444"
  else if Qltb val 70 || Qltb 140 val then "#FFA500"
  else "#4CAF50".

(** [max(0, y_min)]: the second argument wins only when it is greater. *)
Definition max2 (a b : Q) : Q := if Qltb a b then b else a.

Record plot : Type := mk_plot {
  points : list (Z * Q * string);
  ylim : Q * Q
}.

(** [update_plot]: nothing is drawn for an empty list; the line and the
    points need a timestamp for every value and a value for every
    timestamp. *)
Definition update_plot (w : state) : py_result (option plot) :=
  match glucose_values w with
  | [] => Returns None
  | _ :: _ =>
      if (len (timestamps w) =? len (glucose_values w))%Z then
        let points :=
          map (fun p => (fst p, snd p, point_color (snd p)))
            (combine (timestamps w) (glucose_values w)) in
        lo <- py_min (glucose_values w) ;;
        hi <- py_max (glucose_values w) ;;
        let y_min := lo - 20 in
        let y_max := hi + 20 in
        Returns (Some (mk_plot points (max2 0 y_min, y_max)))
      else Raises
  end.

End TrendPlotWidget.

(** ** [class MainWindow]: the methods that carry data

    Of the window only what its methods do to the store, to the current
    patient, to the list [history] and to the trend plot is modelled; the
    widgets they also update are left out.  A text typed into the input box
    is taken as [float] reads it: blank, rejected, a finite number, an
    infinity or not-a-number.

    A stored value is a number.  The one row that the window can store
    without one comes from the text "nan": SQLite keeps NULL for it, and no
    [reading] stands for such a row.  [analyze_glucose] reports that insert
    as [StoredNull]; [load_patient_data] and [update_statistics], which the
    source lets fail with [TypeError] on such a row, are modelled on the
    stores that hold none. *)

Module MainWindow.

Import DatabaseManager.

(** [sub in s] on text. *)
Fixpoint contains (sub s : string) : bool :=
  if String.prefix sub s then true
  else match s with
       | EmptyString => false
       | String _ s' => contains sub s'
       end.

Definition get_color_for_status (status : string) : string :=
  if contains "CRITICAL" status then "#FF4444"
  else if contains "WARNING" status then "#FFA500"
  else "#4CAF50".

(** [if not self.current_patient_id]: no id, or the id 0. *)
Definition no_patient (current_patient_id : option Z) : bool :=
  match current_patient_id with
  | Some id => (id =? 0)%Z
  | None => true
  end.

Definition id_of (current_patient_id : option Z) : Z :=
  match current_patient_id with
  | Some id => id
  | None => 0%Z
  end.

(** [ensure_default_patient]: the new store and [current_patient_id]. *)
Definition ensure_default_patient (db : database) (now : Calendar.datetime)
    : database * option Z :=
  match get_patient_by_name db "Default Patient" with
  | None => add_patient db now "Default Patient" 30 "Normal"
  | Some patient => (db, Some (p_id patient))
  end.

(** The dictionary that [load_patient_data] builds for a stored reading. *)
Record entry : Type := mk_entry {
  e_value : Q;
  e_status : string;
  e_timestamp : string;
  e_color : string
}.

Record view : Type := mk_view {
  history : list entry;
  trend_plot : TrendPlotWidget.state
}.

(** [load_patient_data]; [ui_ready] is [hasattr(self, 'history_table')]. *)
Definition load_patient_data (db : database) (now : Calendar.datetime)
    (current_patient_id : option Z) (ui_ready : bool) (v : view) : view :=
  if no_patient current_patient_id then v
  else if negb ui_ready then v
  else
    let cleared :=
      mk_view [] (TrendPlotWidget.clear_plot (trend_plot v)) in
    let readings := get_readings db now (id_of current_patient_id) None in
    fold_left
      (fun v reading =>
         let result :=
           mk_entry (r_glucose_value reading) (r_status reading)
             (r_timestamp reading)
             (get_color_for_status (r_status reading)) in
         mk_view (history v ++ [result])%list
           (TrendPlotWidget.add_reading (trend_plot v)
              (r_glucose_value reading)))
      (rev readings) cleared.



(** [analyze_glucose].  The stripped text as [float] reads it: nothing,
    [ValueError], a finite number, an infinity ("inf", "-inf", "1e999") or
    not-a-number ("nan"). *)
Inductive glucose_text : Type :=
| Blank
| NotANumber
| Number (v : Q)
| Infinity (negative : bool)
| NaN.

(** What the method has done when it returns: shown a message and stored
    nothing; stored a reading, drawn it and set the alarm; or, for
    not-a-number, inserted a row without a value ([StoredNull], with the
    columns of the row) -- what the method goes on to do with the plot and
    the dashboard after that insert is not modelled.  [Uncaught] is an
    exception of the store that leaves the method. *)
Inductive analysis : Type :=
| InputError (message : string)
| Analyzed (db : database) (result : GlucoseAnalyzer.result)
    (plot : TrendPlotWidget.state) (alarm_active : bool)
| StoredNull (patient_id : Z) (status condition timestamp : string)
| Uncaught.

(** [analyze] on not-a-number: the four comparisons are false and the
    last branch is taken. *)
Definition status_of_nan : string := "CRITICAL HIGH".

Definition analyze_glucose (db : database) (now : Calendar.datetime)
    (current_patient_id : Z) (plot : TrendPlotWidget.state)
    (glucose_str : glucose_text) (condition : string) : analysis :=
  match glucose_str with
  | Blank => InputError "Please enter a glucose value."
  | NotANumber => InputError "Please enter a valid numeric value."
  | Number glucose_value =>
      if Qltb glucose_value 0 || Qltb 1000 glucose_value
      then InputError "Please enter a valid glucose value (0-1000 mg/dL)."
      else
        let result := GlucoseAnalyzer.analyze now glucose_value in
        match add_reading db current_patient_id glucose_value
                (GlucoseAnalyzer.status result) condition
                (GlucoseAnalyzer.timestamp result) with
        | Ok db' =>
            Analyzed db' result
              (TrendPlotWidget.add_reading plot glucose_value)
              (GlucoseAnalyzer.alarm result)
        | IntegrityError => Uncaught
        end
  | Infinity _ =>
      InputError "Please enter a valid glucose value (0-1000 mg/dL)."
  | NaN =>
      StoredNull current_patient_id status_of_nan condition
        (Calendar.strftime_datetime now)
  end.

End MainWindow.

(** ** Invariants of the store *)

Module Invariant.

Import DatabaseManager.

(** The ids of a table are pairwise different and none is beyond the
    table's counter; no two patients share a name. *)
Definition ids_ok (ids : list Z) (seq : Z) : Prop :=
  NoDup ids /\ Forall (fun id => (id <= seq)%Z) ids.

Definition well_formed (db : database) : Prop :=
  ids_ok (map p_id (patients db)) (patients_seq db) /\
  ids_ok (map r_id (readings db)) (readings_seq db) /\
  ids_ok (map g_id (goals db)) (goals_seq db) /\
  NoDup (map p_name (patients db)).

(** Every stored status is the one [analyze] gives the stored value, and
    every stored value is within the bounds of the input box: the rows that
    [analyze_glucose] stores for the numbers it accepts. *)
Definition statuses_ok (db : database) : Prop :=
  forall r now, In r (readings db) ->
    r_status r = GlucoseAnalyzer.status
                   (GlucoseAnalyzer.analyze now (r_glucose_value r)) /\
    0 <= r_glucose_value r /\ r_glucose_value r <= 1000.

(** The stores that the methods of [DatabaseManager] build from a new
    file. *)
Inductive reachable : database -> Prop :=
| reach_init : reachable (init_database None)
| reach_add_patient db now name age diabetes_type :
    reachable db ->
    reachable (fst (add_patient db now name age diabetes_type))
| reach_update_patient_targets db patient_id target_min target_max :
    reachable db ->
    reachable (update_patient_targets db patient_id target_min target_max)
| reach_add_reading db patient_id v status condition timestamp db' :
    reachable db ->
    add_reading db patient_id v status condition timestamp = Ok db' ->
    reachable db'
| reach_add_goal db patient_id goal_type target start_date end_date db' :
    reachable db ->
    add_goal db patient_id goal_type target start_date end_date = Ok db' ->
    reachable db'
| reach_update_goal_progress db goal_id current_value achieved :
    reachable db ->
    reachable (update_goal_progress db goal_id current_value achieved).

End Invariant.

(** ** What the trend plot is expected to hold *)

Module Expected.

(** The x coordinates after [n] readings, before the oldest are dropped:
    1 to 20, then 21 for every further reading. *)
Definition x_coordinates (n : nat) : list Z :=
  (map Z.of_nat (seq 1 (Nat.min n 20)) ++ repeat 21%Z (n - 20))%list.

(** The last [k] elements of a list. *)
Definition last_n {A : Type} (k : nat) (l : list A) : list A :=
  skipn (List.length l - k) l.

End Expected.

(** ** More sample data *)

Module Samples.

Import Calendar DatabaseManager.

Definition two_patients : database :=
  fst (add_patient Examples.alice_db Examples.now0 "Bob" 52 "Type 2").

Definition low_row : reading := Examples.reading_of_value 100.

Definition high_row : reading := Examples.reading_of_value 180.

(** The store after a reading of 150 has been taken for patient 1. *)
Definition taken_db : database :=
  match MainWindow.analyze_glucose Examples.alice_db Examples.now0 1
          TrendPlotWidget.init (MainWindow.Number 150) "After Meal" with
  | MainWindow.Analyzed db _ _ _ => db
  | _ => Examples.alice_db
  end.

Definition empty_view : MainWindow.view :=
  MainWindow.mk_view [] TrendPlotWidget.init.

End Samples.

(** * Properties *)

(** ** Comparisons *)

Ltac qlra := Lqa.lra.

Lemma Qleb_spec (x y : Q) : reflect (x <= y) (Qleb x y).
Proof.
  unfold Qleb. destruct (Qle_bool x y) eqn:E; constructor.
  - now apply Qle_bool_iff.
  - intros H. apply Qle_bool_iff in H. congruence.
Qed.

Lemma Qltb_spec (x y : Q) : reflect (x < y) (Qltb x y).
Proof.
  unfold Qltb. destruct (Qle_bool y x) eqn:E; constructor; simpl.
  - apply Qle_bool_iff in E. now apply Qle_not_lt.
  - apply Qnot_le_lt. intros H. apply Qle_bool_iff in H. congruence.
Qed.

Ltac q_cases :=
  repeat match goal with
  | |- context [Qltb ?x ?y] => destruct (Qltb_spec x y)
  | |- context [Qleb ?x ?y] => destruct (Qleb_spec x y)
  | H : context [Qltb ?x ?y] |- _ => destruct (Qltb_spec x y)
  | H : context [Qleb ?x ?y] |- _ => destruct (Qleb_spec x y)
  end.

Lemma Qleb_total (x y : Q) : Qleb x y = true \/ Qleb y x = true.
Proof. q_cases; auto; exfalso; qlra. Qed.

Lemma Qleb_trans (x y z : Q) :
  Qleb x y = true -> Qleb y z = true -> Qleb x z = true.
Proof. q_cases; auto; intros; try discriminate; exfalso; qlra. Qed.

(** ** Text order *)

Lemma string_leb_cons (x y : ascii) (s t : string) :
  String.leb (String x s) (String y t) =
  match N.compare (N_of_ascii x) (N_of_ascii y) with
  | Lt => true
  | Gt => false
  | Eq => String.leb s t
  end.
Proof.
  unfold String.leb; simpl. unfold Ascii.compare.
  now destruct (N.compare (N_of_ascii x) (N_of_ascii y)).
Qed.

Lemma string_leb_trans (a b c : string) :
  String.leb a b = true -> String.leb b c = true -> String.leb a c = true.
Proof.
  revert b c. induction a as [|x a IH]; intros [|y b] [|z c]; try easy.
  rewrite !string_leb_cons.
  destruct (N.compare_spec (N_of_ascii x) (N_of_ascii y));
    destruct (N.compare_spec (N_of_ascii y) (N_of_ascii z));
    destruct (N.compare_spec (N_of_ascii x) (N_of_ascii z));
    try easy; try lia.
  apply IH.
Qed.

(** ** Counting and sorting *)

Section ListFacts.

Context {A : Type}.


Lemma count_if_ext (p q : A -> bool) (l : list A) :
  (forall a, In a l -> p a = q a) -> count_if p l = count_if q l.
Proof.
  induction l as [|a l IH]; simpl; intros H; [easy|].
  rewrite (H a) by auto. rewrite IH by auto. reflexivity.
Qed.

Lemma count_if_le (p q : A -> bool) (l : list A) :
  (forall a, In a l -> p a = true -> q a = true) ->
  (count_if p l <= count_if q l)%nat.
Proof.
  induction l as [|a l IH]; simpl; intros H; [easy|].
  assert (IH' := IH (fun x Hx => H x (or_intror Hx))).
  destruct (p a) eqn:E.
  - rewrite (H a) by auto. lia.
  - destruct (q a); lia.
Qed.

Lemma count_if_all (p : A -> bool) (l : list A) :
  Forall (fun a => p a = true) l -> count_if p l = List.length l.
Proof.
  induction 1 as [|a l Ha _ IH]; simpl; [easy|]. now rewrite Ha, IH.
Qed.

Lemma count_if_bound (p : A -> bool) (l : list A) :
  (count_if p l <= List.length l)%nat.
Proof.
  induction l as [|a l IH]; simpl; [easy|]. destruct (p a); lia.
Qed.

Lemma count_if_perm (p : A -> bool) (l l' : list A) :
  Permutation l l' -> count_if p l = count_if p l'.
Proof.
  induction 1 as [|x l l' _ IH|x y l|l l' l'' _ IH1 _ IH2]; simpl.
  - reflexivity.
  - now rewrite IH.
  - destruct (p x), (p y); reflexivity.
  - congruence.
Qed.

Variable le : A -> A -> bool.

Lemma insert_sorted_perm (a : A) (l : list A) :
  Permutation (a :: l) (insert_sorted le a l).
Proof.
  induction l as [|b l IH]; simpl; [easy|].
  destruct (le a b); [easy|].
  rewrite perm_swap. now constructor.
Qed.

Lemma sort_perm (l : list A) : Permutation l (sort le l).
Proof.
  induction l as [|a l IH]; simpl; [easy|].
  rewrite <- insert_sorted_perm. now constructor.
Qed.

Lemma sort_length (l : list A) : List.length (sort le l) = List.length l.
Proof. symmetry. apply Permutation_length, sort_perm. Qed.

Hypothesis le_total : forall a b, le a b = true \/ le b a = true.
Hypothesis le_trans :
  forall a b c, le a b = true -> le b c = true -> le a c = true.

Lemma insert_sorted_sorted (a : A) (l : list A) :
  StronglySorted (fun x y => le x y = true) l ->
  StronglySorted (fun x y => le x y = true) (insert_sorted le a l).
Proof.
  induction 1 as [|b l Hl IH Hb]; simpl.
  - repeat constructor.
  - destruct (le a b) eqn:E.
    + constructor; [now constructor|].
      constructor; [exact E|].
      eapply Forall_impl; [|exact Hb]. intros c Hc. now apply (le_trans a b c).
    + constructor; [exact IH|].
      assert (Hba : le b a = true)
        by (destruct (le_total a b); [congruence|easy]).
      eapply Permutation_Forall; [apply insert_sorted_perm|].
      now constructor.
Qed.

Lemma sort_sorted (l : list A) :
  StronglySorted (fun x y => le x y = true) (sort le l).
Proof.
  induction l as [|a l IH]; simpl; [constructor|].
  now apply insert_sorted_sorted.
Qed.

End ListFacts.

(** ** The library models at known values *)

Example ymd2ord_epoch : Calendar.ymd2ord 1 1 1 = 1%Z.
Proof. reflexivity. Qed.

Example ymd2ord_2024 : Calendar.ymd2ord 2024 1 1 = 738886%Z.
Proof. reflexivity. Qed.

Example ord2ymd_leap_day :
  Calendar.ord2ymd (Calendar.ymd2ord 2024 3 1 - 1) = (2024, 2, 29)%Z /\
  Calendar.ord2ymd (Calendar.ymd2ord 1900 3 1 - 1) = (1900, 2, 28)%Z /\
  Calendar.ord2ymd (Calendar.ymd2ord 2001 1 1 - 1) = (2000, 12, 31)%Z.
Proof. repeat split; reflexivity. Qed.

Example sub_days_30 :
  Calendar.strftime_datetime (Calendar.sub_days Examples.now0 30)
  = "2024-02-14 09:05:07" /\
  Calendar.strftime_date (Calendar.sub_days Examples.now0 30) = "2024-02-14".
Proof. split; reflexivity. Qed.

Example text_order_of_timestamps :
  String.leb "2024-02-14" "2024-02-14 00:00:00" = true /\
  String.leb "2024-02-14" "2024-02-13 23:59:59" = false.
Proof. split; reflexivity. Qed.

(** ** The calendar

    [ord2ymd] is checked against a walk through the 146097 days of the
    years 1 to 400, day after day; the Gregorian calendar repeats after
    that many days, and so do [ymd2ord] and [ord2ymd]. *)

Section CalendarFacts.

Import Calendar Gregorian.
Local Open Scope Z_scope.

Lemma triple_eqb (a b c a' b' c' : Z) :
  (a' =? a) && (b' =? b) && (c' =? c) = true -> (a', b', c') = (a, b, c).
Proof.
  intros H. apply andb_true_iff in H. destruct H as [H Hc].
  apply andb_true_iff in H. destruct H as [Ha Hb].
  apply Z.eqb_eq in Ha, Hb, Hc. now subst.
Qed.

Lemma one_cycle_checked : days_agree (Z.to_nat 146097) 1 (1, 1, 1) = true.
Proof. vm_compute. reflexivity. Qed.

Lemma iter_next_day (k : nat) (x : Z * Z * Z) :
  Nat.iter (S k) next_day x = Nat.iter k next_day (next_day x).
Proof.
  induction k as [|k IH]; [reflexivity|].
  change (Nat.iter (S (S k)) next_day x)
    with (next_day (Nat.iter (S k) next_day x)).
  now rewrite IH.
Qed.

Lemma days_agree_spec (fuel : nat) :
  forall (n : Z) (x : Z * Z * Z),
    days_agree fuel n x = true ->
    forall k : nat, (k < fuel)%nat ->
      ord2ymd (n + Z.of_nat k) = Nat.iter k next_day x.
Proof.
  induction fuel as [|fuel IH]; intros n x H k Hk; [lia|].
  cbn [days_agree] in H.
  apply andb_true_iff in H. destruct H as [Hhere Hrest].
  destruct k as [|k].
  - cbn [Nat.iter nat_rect]. rewrite Z.add_0_r.
    destruct x as [[y m] d], (ord2ymd n) as [[y' m'] d'].
    now apply triple_eqb.
  - rewrite iter_next_day.
    replace (n + Z.of_nat (S k)) with (n + 1 + Z.of_nat k) by lia.
    apply (IH (n + 1) (next_day x) Hrest k). lia.
Qed.

(** *** The cycle of 400 years *)

Lemma is_leap_period (y q : Z) : is_leap (y + 400 * q) = is_leap y.
Proof.
  unfold is_leap.
  replace ((y + 400 * q) mod 4) with (y mod 4)
    by (replace (y + 400 * q) with (y + (100 * q) * 4) by ring;
        now rewrite Z_mod_plus_full).
  replace ((y + 400 * q) mod 100) with (y mod 100)
    by (replace (y + 400 * q) with (y + (4 * q) * 100) by ring;
        now rewrite Z_mod_plus_full).
  replace ((y + 400 * q) mod 400) with (y mod 400)
    by (replace (y + 400 * q) with (y + q * 400) by ring;
        now rewrite Z_mod_plus_full).
  reflexivity.
Qed.

Lemma days_before_year_period (y q : Z) :
  days_before_year (y + 400 * q) = days_before_year y + 146097 * q.
Proof.
  unfold days_before_year. cbv zeta.
  replace ((y + 400 * q - 1) / 4) with ((y - 1) / 4 + 100 * q)
    by (replace (y + 400 * q - 1) with (y - 1 + (100 * q) * 4) by ring;
        now rewrite Z_div_plus_full by lia).
  replace ((y + 400 * q - 1) / 100) with ((y - 1) / 100 + 4 * q)
    by (replace (y + 400 * q - 1) with (y - 1 + (4 * q) * 100) by ring;
        now rewrite Z_div_plus_full by lia).
  replace ((y + 400 * q - 1) / 400) with ((y - 1) / 400 + q)
    by (replace (y + 400 * q - 1) with (y - 1 + q * 400) by ring;
        now rewrite Z_div_plus_full by lia).
  ring.
Qed.

Lemma ymd2ord_period (y m d q : Z) :
  ymd2ord (y + 400 * q) m d = ymd2ord y m d + 146097 * q.
Proof.
  unfold ymd2ord, days_before_month.
  rewrite days_before_year_period, is_leap_period. lia.
Qed.

Lemma days_in_month_period (y m q : Z) :
  days_in_month (y + 400 * q) m = days_in_month y m.
Proof. unfold days_in_month. now rewrite is_leap_period. Qed.

Lemma valid_date_period (q : Z) (x : Z * Z * Z) :
  valid_date (shift_years q x) = valid_date x.
Proof.
  destruct x as [[y m] d]. unfold valid_date, shift_years.
  now rewrite days_in_month_period.
Qed.

Lemma next_day_period (q : Z) (x : Z * Z * Z) :
  next_day (shift_years q x) = shift_years q (next_day x).
Proof.
  destruct x as [[y m] d]. unfold next_day, shift_years.
  rewrite days_in_month_period.
  destruct (d <? days_in_month y m); [reflexivity|].
  destruct (m <? 12); [reflexivity|]. f_equal. f_equal. lia.
Qed.

Lemma toordinal_period (q : Z) (x : Z * Z * Z) :
  toordinal (shift_years q x) = toordinal x + 146097 * q.
Proof. destruct x as [[y m] d]. apply ymd2ord_period. Qed.

Lemma ord2ymd_period (n q : Z) :
  ord2ymd (n + 146097 * q) = shift_years q (ord2ymd n).
Proof.
  unfold ord2ymd. change DI400Y with 146097.
  replace (n + 146097 * q - 1) with (n - 1 + q * 146097) by ring.
  rewrite Z_div_plus_full by lia. rewrite Z_mod_plus_full.
  cbv zeta.
  generalize ((n - 1) mod 146097). generalize ((n - 1) / 146097).
  intros a r.
  repeat match goal with
         | |- context [if ?b then _ else _] => destruct b
         end; unfold shift_years; f_equal; try f_equal; lia.
Qed.

(** *** [ymd2ord] is one to one on dates *)

Lemma month_cases (m : Z) :
  1 <= m <= 12 ->
  m = 1 \/ m = 2 \/ m = 3 \/ m = 4 \/ m = 5 \/ m = 6 \/
  m = 7 \/ m = 8 \/ m = 9 \/ m = 10 \/ m = 11 \/ m = 12.
Proof. lia. Qed.

Lemma valid_date_bounds (y m d : Z) :
  valid_date (y, m, d) = true ->
  1 <= m <= 12 /\ 1 <= d <= days_in_month y m.
Proof.
  unfold valid_date. intros H.
  repeat (apply andb_true_iff in H; destruct H as [H ?]). lia.
Qed.

Ltac each_month H :=
  destruct (month_cases _ H) as
    [->|[->|[->|[->|[->|[->|[->|[->|[->|[->|[->| ->]]]]]]]]]]].

Lemma days_before_month_table (y : Z) :
  let l := b2z (is_leap y) in
  days_before_month y 1 = 0 /\ days_before_month y 2 = 31 /\
  days_before_month y 3 = 59 + l /\ days_before_month y 4 = 90 + l /\
  days_before_month y 5 = 120 + l /\ days_before_month y 6 = 151 + l /\
  days_before_month y 7 = 181 + l /\ days_before_month y 8 = 212 + l /\
  days_before_month y 9 = 243 + l /\ days_before_month y 10 = 273 + l /\
  days_before_month y 11 = 304 + l /\ days_before_month y 12 = 334 + l.
Proof.
  unfold days_before_month. destruct (is_leap y); repeat split; reflexivity.
Qed.

Lemma days_in_month_table (y : Z) :
  let l := b2z (is_leap y) in
  days_in_month y 1 = 31 /\ days_in_month y 2 = 28 + l /\
  days_in_month y 3 = 31 /\ days_in_month y 4 = 30 /\
  days_in_month y 5 = 31 /\ days_in_month y 6 = 30 /\
  days_in_month y 7 = 31 /\ days_in_month y 8 = 31 /\
  days_in_month y 9 = 30 /\ days_in_month y 10 = 31 /\
  days_in_month y 11 = 30 /\ days_in_month y 12 = 31.
Proof.
  unfold days_in_month. destruct (is_leap y); repeat split; reflexivity.
Qed.

Lemma b2z_bounds (b : bool) : 0 <= b2z b <= 1.
Proof. destruct b; cbn; lia. Qed.

Ltac month_tables y :=
  pose proof (days_before_month_table y) as Hbefore;
  pose proof (days_in_month_table y) as Hin;
  pose proof (b2z_bounds (is_leap y)) as Hleap;
  cbv zeta in Hbefore, Hin;
  generalize dependent (b2z (is_leap y)); intros;
  decompose [and] Hbefore; decompose [and] Hin; clear Hbefore Hin.

(** The day of the year of a date lies in its month's days. *)
Lemma day_of_year_in_month (y m d : Z) :
  valid_date (y, m, d) = true ->
  days_before_month y m < days_before_month y m + d
  /\ days_before_month y m + d <= days_before_month y m + days_in_month y m
  /\ (m < 12 ->
      days_before_month y m + days_in_month y m = days_before_month y (m + 1))
  /\ (m = 12 ->
      days_before_month y m + days_in_month y m = 365 + b2z (is_leap y)).
Proof.
  intros H. apply valid_date_bounds in H. destruct H as [Hm Hd].
  month_tables y.
  each_month Hm;
    repeat match goal with
           | |- context [days_before_month y (Z.pos ?p + 1)] =>
               let v := eval cbv in (Z.pos p + 1) in
               change (Z.pos p + 1) with v
           end; lia.
Qed.

Lemma days_before_month_mono (y m m' : Z) :
  1 <= m -> m <= m' -> m' <= 12 ->
  days_before_month y m <= days_before_month y m'.
Proof.
  intros H1 H2 H3.
  assert (Hm : 1 <= m <= 12) by lia. assert (Hm' : 1 <= m' <= 12) by lia.
  month_tables y.
  each_month Hm; each_month Hm'; lia.
Qed.

Lemma day_of_year_bounds (y m d : Z) :
  valid_date (y, m, d) = true ->
  1 <= days_before_month y m + d <= 365 + b2z (is_leap y).
Proof.
  intros H. pose proof (valid_date_bounds _ _ _ H) as [Hm Hd].
  month_tables y.
  each_month Hm; lia.
Qed.

Lemma days_before_year_succ (y : Z) :
  days_before_year (y + 1) = days_before_year y + 365 + b2z (is_leap y).
Proof.
  unfold days_before_year, is_leap, b2z. cbv zeta.
  replace (y + 1 - 1) with y by lia.
  destruct (Z.eqb_spec (y mod 4) 0); destruct (Z.eqb_spec (y mod 100) 0);
    destruct (Z.eqb_spec (y mod 400) 0); cbn [andb orb negb];
    Z.div_mod_to_equations; lia.
Qed.

Lemma days_before_year_mono (y y' : Z) :
  y <= y' -> days_before_year y <= days_before_year y'.
Proof.
  intros H. unfold days_before_year. cbv zeta.
  Z.div_mod_to_equations. lia.
Qed.

(** *** The day after *)

Lemma next_day_valid (x : Z * Z * Z) :
  valid_date x = true -> valid_date (next_day x) = true.
Proof.
  destruct x as [[y m] d]. intros H.
  pose proof (valid_date_bounds _ _ _ H) as [Hm Hd].
  unfold next_day.
  destruct (Z.ltb_spec d (days_in_month y m)) as [Hlt|Hge].
  - unfold valid_date.
    repeat (apply andb_true_iff; split); lia.
  - destruct (Z.ltb_spec m 12) as [Hm12|Hm12].
    + assert (H1 : 1 <= days_in_month y (m + 1)).
      { month_tables y.
        each_month Hm;
          repeat match goal with
                 | |- context [days_in_month y (Z.pos ?p + 1)] =>
                     let v := eval cbv in (Z.pos p + 1) in
                     change (Z.pos p + 1) with v
                 end; lia. }
      unfold valid_date. repeat (apply andb_true_iff; split); lia.
    + reflexivity.
Qed.

Lemma toordinal_next_day (x : Z * Z * Z) :
  valid_date x = true -> toordinal (next_day x) = toordinal x + 1.
Proof.
  destruct x as [[y m] d]. intros H.
  pose proof (valid_date_bounds _ _ _ H) as [Hm Hd].
  pose proof (day_of_year_in_month _ _ _ H) as [_ [_ [Hn Hl]]].
  unfold next_day.
  destruct (Z.ltb_spec d (days_in_month y m)) as [Hlt|Hge].
  - unfold toordinal, ymd2ord. lia.
  - destruct (Z.ltb_spec m 12) as [Hm12|Hm12].
    + unfold toordinal, ymd2ord. specialize (Hn Hm12). lia.
    + assert (Hm' : m = 12) by lia. specialize (Hl Hm').
      unfold toordinal, ymd2ord. rewrite days_before_year_succ.
      destruct (days_before_month_table (y + 1)) as [H1 _]. lia.
Qed.

Lemma toordinal_inj (x x' : Z * Z * Z) :
  valid_date x = true -> valid_date x' = true ->
  toordinal x = toordinal x' -> x = x'.
Proof.
  destruct x as [[y m] d], x' as [[y' m'] d']. unfold toordinal, ymd2ord.
  intros Hv Hv' He.
  pose proof (day_of_year_bounds _ _ _ Hv) as Hb.
  pose proof (day_of_year_bounds _ _ _ Hv') as Hb'.
  pose proof (days_before_year_succ y) as Hs.
  pose proof (days_before_year_succ y') as Hs'.
  assert (Hy : y = y').
  { destruct (Z.lt_trichotomy y y') as [Hlt|[Heq|Hgt]]; [|exact Heq|].
    - pose proof (days_before_year_mono (y + 1) y' ltac:(lia)). lia.
    - pose proof (days_before_year_mono (y' + 1) y ltac:(lia)). lia. }
  subst y'.
  pose proof (valid_date_bounds _ _ _ Hv) as [Hm Hd].
  pose proof (valid_date_bounds _ _ _ Hv') as [Hm' Hd'].
  pose proof (day_of_year_in_month _ _ _ Hv) as [_ [Hi [Hn _]]].
  pose proof (day_of_year_in_month _ _ _ Hv') as [_ [Hi' [Hn' _]]].
  assert (Hmm : m = m').
  { destruct (Z.lt_trichotomy m m') as [Hlt|[Heq|Hgt]]; [|exact Heq|].
    - pose proof (days_before_month_mono y (m + 1) m' ltac:(lia) ltac:(lia)
                    ltac:(lia)). lia.
    - pose proof (days_before_month_mono y (m' + 1) m ltac:(lia) ltac:(lia)
                    ltac:(lia)). lia. }
  subst m'. f_equal. lia.
Qed.

(** *** Every ordinal *)

Lemma walk_from_first_day (k : nat) :
  valid_date (Nat.iter k next_day (1, 1, 1)) = true /\
  toordinal (Nat.iter k next_day (1, 1, 1)) = 1 + Z.of_nat k.
Proof.
  induction k as [|k [IHv IHo]]; [split; reflexivity|].
  change (Nat.iter (S k) next_day (1, 1, 1))
    with (next_day (Nat.iter k next_day (1, 1, 1))).
  split; [now apply next_day_valid|].
  rewrite toordinal_next_day by exact IHv. lia.
Qed.

Lemma first_cycle (k : nat) :
  Z.of_nat k < 146097 ->
  valid_date (Nat.iter k next_day (1, 1, 1)) = true /\
  toordinal (Nat.iter k next_day (1, 1, 1)) = 1 + Z.of_nat k /\
  ord2ymd (1 + Z.of_nat k) = Nat.iter k next_day (1, 1, 1).
Proof.
  intros Hk. destruct (walk_from_first_day k) as [Hv Ho].
  split; [exact Hv|]. split; [exact Ho|].
  apply (days_agree_spec (Z.to_nat 146097) 1 (1, 1, 1) one_cycle_checked k).
  lia.
Qed.

Lemma ordinal_in_cycle (n : Z) :
  exists (q : Z) (k : nat),
    Z.of_nat k < 146097 /\ n = 1 + Z.of_nat k + 146097 * q.
Proof.
  exists ((n - 1) / 146097), (Z.to_nat ((n - 1) mod 146097)).
  pose proof (Z.mod_pos_bound (n - 1) 146097 ltac:(lia)) as Hr.
  pose proof (Z.div_mod (n - 1) 146097 ltac:(lia)) as Hq.
  rewrite Z2Nat.id by lia. lia.
Qed.

Lemma ord2ymd_valid (n : Z) : valid_date (ord2ymd n) = true.
Proof.
  destruct (ordinal_in_cycle n) as [q [k [Hk ->]]].
  destruct (first_cycle k Hk) as [Hv [_ Ho]].
  now rewrite ord2ymd_period, Ho, valid_date_period.
Qed.

Lemma toordinal_ord2ymd (n : Z) : toordinal (ord2ymd n) = n.
Proof.
  destruct (ordinal_in_cycle n) as [q [k [Hk ->]]].
  destruct (first_cycle k Hk) as [_ [Ht Ho]].
  now rewrite ord2ymd_period, Ho, toordinal_period, Ht.
Qed.

Lemma ord2ymd_last_day : ord2ymd 146097 = (400, 12, 31).
Proof. reflexivity. Qed.

Lemma ord2ymd_succ (n : Z) : ord2ymd (n + 1) = next_day (ord2ymd n).
Proof.
  destruct (ordinal_in_cycle n) as [q [k [Hk ->]]].
  destruct (first_cycle k Hk) as [_ [_ Ho]].
  rewrite (ord2ymd_period (1 + Z.of_nat k)), Ho, next_day_period.
  destruct (Z.eq_dec (Z.of_nat k + 1) 146097) as [Hlast|Hlast].
  - replace (1 + Z.of_nat k + 146097 * q + 1) with (1 + 146097 * (q + 1)) by lia.
    rewrite ord2ymd_period. rewrite <- Ho.
    replace (1 + Z.of_nat k) with 146097 by lia.
    rewrite ord2ymd_last_day. change (ord2ymd 1) with (1, 1, 1).
    change (next_day (400, 12, 31)) with (401, 1, 1).
    unfold shift_years. f_equal. f_equal. lia.
  - destruct (first_cycle (S k) ltac:(lia)) as [_ [_ Ho']].
    replace (1 + Z.of_nat k + 146097 * q + 1)
      with (1 + Z.of_nat (S k) + 146097 * q) by lia.
    now rewrite ord2ymd_period, Ho'.
Qed.

Lemma ord2ymd_add (k : nat) (n : Z) :
  Nat.iter k next_day (ord2ymd n) = ord2ymd (n + Z.of_nat k).
Proof.
  induction k as [|k IH].
  - cbn. now rewrite Z.add_0_r.
  - change (Nat.iter (S k) next_day (ord2ymd n))
      with (next_day (Nat.iter k next_day (ord2ymd n))).
    rewrite IH, <- ord2ymd_succ. f_equal. lia.
Qed.

Lemma ord2ymd_toordinal (x : Z * Z * Z) :
  valid_date x = true -> ord2ymd (toordinal x) = x.
Proof.
  intros Hv. apply toordinal_inj.
  - apply ord2ymd_valid.
  - exact Hv.
  - apply toordinal_ord2ymd.
Qed.

(** *** [now - timedelta(days)] *)

Lemma sub_days_date (dt : datetime) (d : Z) :
  date_of (sub_days dt d) = ord2ymd (toordinal (date_of dt) - d).
Proof.
  unfold sub_days, date_of, toordinal.
  now destruct (ord2ymd (ymd2ord (year dt) (month dt) (day dt) - d))
    as [[y m] dd].
Qed.

Lemma sub_days_walk (dt : datetime) (d : Z) :
  0 <= d -> valid_date (date_of dt) = true ->
  Nat.iter (Z.to_nat d) next_day (date_of (sub_days dt d)) = date_of dt.
Proof.
  intros Hd Hv. rewrite sub_days_date, ord2ymd_add, Z2Nat.id by lia.
  replace (toordinal (date_of dt) - d + d) with (toordinal (date_of dt)) by lia.
  now apply ord2ymd_toordinal.
Qed.

(** *** The digits of a date *)

Lemma days_in_month_le_31 (y m : Z) : 1 <= m <= 12 -> days_in_month y m <= 31.
Proof. intros Hm. month_tables y. each_month Hm; lia. Qed.

Lemma digit_value_digit (n : Z) : digit_value (digit n) = n mod 10.
Proof.
  unfold digit_value, digit.
  pose proof (Z.mod_pos_bound n 10 ltac:(lia)) as H.
  rewrite nat_ascii_embedding by lia. lia.
Qed.

Lemma read_digits_digits (w : nat) :
  forall (n : Z) (acc : string) (a : Z),
    read_digits (digits w n acc) a
    = read_digits acc (a * 10 ^ Z.of_nat w + n mod 10 ^ Z.of_nat w).
Proof.
  induction w as [|w IH]; intros n acc a.
  - cbn [digits]. change (10 ^ Z.of_nat 0) with 1.
    rewrite Z.mod_1_r. f_equal. lia.
  - cbn [digits]. rewrite IH. cbn [read_digits]. rewrite digit_value_digit.
    f_equal. rewrite Nat2Z.inj_succ, Z.pow_succ_r by lia.
    rewrite (Z.rem_mul_r n 10 (10 ^ Z.of_nat w)) by lia. ring.
Qed.

Lemma int_pad (w : nat) (n : Z) :
  0 <= n < 10 ^ Z.of_nat w -> int (pad w n) = n.
Proof.
  intros H. unfold int, pad. rewrite read_digits_digits. cbn [read_digits].
  rewrite Z.mod_small by lia. lia.
Qed.

(** The ordinals of [datetime], 1 to [_MAXORDINAL], are those of the years
    1 to 9999. *)
Lemma ord2ymd_year_range (n : Z) :
  1 <= n <= 3652059 -> 1 <= fst (fst (ord2ymd n)) <= 9999.
Proof.
  intros Hn. pose proof (ord2ymd_valid n) as Hv.
  pose proof (toordinal_ord2ymd n) as Ho.
  destruct (ord2ymd n) as [[y m] d]. cbn [fst].
  unfold toordinal, ymd2ord in Ho.
  pose proof (day_of_year_bounds _ _ _ Hv) as Hb.
  pose proof (days_before_year_succ y) as Hs.
  assert (H1 : days_before_year 1 = 0) by reflexivity.
  assert (H2 : days_before_year 10000 = 3652059) by reflexivity.
  split.
  - destruct (Z.le_gt_cases 1 y) as [H|H]; [exact H|].
    pose proof (days_before_year_mono (y + 1) 1 ltac:(lia)). lia.
  - destruct (Z.le_gt_cases y 9999) as [H|H]; [exact H|].
    pose proof (days_before_year_mono 10000 y ltac:(lia)). lia.
Qed.

Lemma sub_days_year_range (dt : datetime) (d : Z) :
  1 <= toordinal (date_of dt) - d <= 3652059 ->
  1 <= year (sub_days dt d) <= 9999.
Proof.
  intros H. apply ord2ymd_year_range in H.
  unfold sub_days, date_of, toordinal in *.
  destruct (ord2ymd (ymd2ord (year dt) (month dt) (day dt) - d))
    as [[y m] dd].
  exact H.
Qed.

Lemma date_in_digits (dt : datetime) :
  valid_date (date_of dt) = true ->
  int (pad 2 (month dt)) = month dt /\
  int (pad 2 (day dt)) = day dt /\
  (0 <= year dt <= 9999 -> int (pad 4 (year dt)) = year dt).
Proof.
  intros Hv. apply valid_date_bounds in Hv. destruct Hv as [Hm Hd].
  pose proof (days_in_month_le_31 (year dt) (month dt) Hm) as H31.
  split; [apply int_pad; change (10 ^ Z.of_nat 2) with 100; lia|].
  split; [apply int_pad; change (10 ^ Z.of_nat 2) with 100; lia|].
  intros Hy. apply int_pad. change (10 ^ Z.of_nat 4) with 10000. lia.
Qed.

End CalendarFacts.


(** ** Classification *)

Import GlucoseAnalyzer.

(** C1: for every value [v], with no bound on it, [analyze] returns the row
    of the threshold table that the table gives when it is read top-down
    and the first match wins; said with the ranges themselves, exactly one
    of the five rows applies: [v < 54] with CRITICAL LOW, critical, alarm;
    [54 <= v < 70] with WARNING LOW, warning, alarm; [70 <= v <= 140] with
    NORMAL, normal, no alarm; [140 < v <= 180] with WARNING HIGH, warning,
    alarm; [180 < v] with CRITICAL HIGH, critical, alarm. *)
Theorem analyze_threshold_table (now : Calendar.datetime) (v : Q) :
  let r := analyze now v in
  Spec.first_match Spec.threshold_table v
    = Some (status r, severity r, alarm r) /\
  ((v < 54 /\
    status r = "CRITICAL LOW" /\ severity r = "critical" /\ alarm r = true) \/
   (54 <= v /\ v < 70 /\
    status r = "WARNING LOW" /\ severity r = "warning" /\ alarm r = true) \/
   (70 <= v /\ v <= 140 /\
    status r = "NORMAL" /\ severity r = "normal" /\ alarm r = false) \/
   (140 < v /\ v <= 180 /\
    status r = "WARNING HIGH" /\ severity r = "warning" /\ alarm r = true) \/
   (180 < v /\
    status r = "CRITICAL HIGH" /\ severity r = "critical" /\ alarm r = true)).
Proof.
  unfold analyze, Spec.threshold_table, Spec.first_match,
    CRITICAL_LOW, WARNING_LOW, NORMAL_HIGH, WARNING_HIGH.
  cbv zeta.
  destruct (Qltb_spec v 54) as [H1|H1]; simpl.
  { split; [reflexivity|]. left. auto. }
  destruct (Qltb_spec v 70) as [H2|H2]; simpl.
  { destruct (Qleb_spec 54 v); [|exfalso; qlra]. simpl.
    split; [reflexivity|]. right; left. repeat split; auto. }
  destruct (Qleb_spec v 140) as [H3|H3]; simpl.
  { destruct (Qleb_spec 54 v); [|exfalso; qlra].
    destruct (Qleb_spec 70 v); [|exfalso; qlra]. simpl.
    split; [reflexivity|]. right; right; left. repeat split; auto. }
  destruct (Qleb_spec v 180) as [H4|H4]; simpl.
  { destruct (Qleb_spec 54 v); [|exfalso; qlra].
    destruct (Qleb_spec 70 v); [|exfalso; qlra].
    destruct (Qltb_spec 140 v); [|exfalso; qlra]. simpl.
    split; [reflexivity|]. right; right; right; left.
    repeat split; auto. }
  destruct (Qleb_spec 54 v); [|exfalso; qlra].
  destruct (Qleb_spec 70 v); [|exfalso; qlra].
  destruct (Qltb_spec 140 v); [|exfalso; qlra].
  destruct (Qltb_spec 180 v); [|exfalso; qlra]. simpl.
  split; [reflexivity|]. right; right; right; right. repeat split; auto.
Qed.

(** ** The store *)

Import Calendar DatabaseManager.

Lemma name_taken_iff (db : database) (name : string) :
  name_taken db name = true <->
  exists p, In p (patients db) /\ p_name p = name.
Proof.
  unfold name_taken. rewrite existsb_exists.
  split; intros [p [Hin Hp]]; exists p; split; auto.
  - now apply String.eqb_eq.
  - now apply String.eqb_eq.
Qed.

Lemma find_app_fresh (name : string) (l : list patient) (row : patient) :
  (forall p, In p l -> p_name p <> name) ->
  p_name row = name ->
  find (fun p => (p_name p =? name)%string) (l ++ [row]) = Some row.
Proof.
  intros Hl Hrow. induction l as [|p l IH]; simpl.
  - rewrite Hrow, String.eqb_refl. reflexivity.
  - destruct (String.eqb_spec (p_name p) name) as [E|_].
    + exfalso. now apply (Hl p); [left|].
    + apply IH. intros q Hq. apply Hl. now right.
Qed.

(** C4: when a patient named [n] is already stored, [add_patient] returns
    [None] -- a value, not an exception -- and the store it leaves is the
    store it found; when no stored patient is named [n], it appends the
    new row, leaves the readings and goals alone, and returns the id of the
    new row, which is the row that a lookup by name then finds. *)
Theorem add_patient_unique_name :
  (forall db now n age ty,
     (exists p, In p (patients db) /\ p_name p = n) ->
     add_patient db now n age ty = (db, None)) /\
  (forall db now n age ty,
     (forall p, In p (patients db) -> p_name p <> n) ->
     let id := (patients_seq db + 1)%Z in
     let row := mk_patient id n age ty 70 140 (strftime_datetime now) in
     exists db',
       add_patient db now n age ty = (db', Some id) /\
       patients db' = (patients db ++ [row])%list /\
       readings db' = readings db /\
       goals db' = goals db /\
       get_patient_by_name db' n = Some row /\
       p_id row = id).
Proof.
  split; intros db now n age ty H.
  - apply name_taken_iff in H.
    unfold add_patient, insert_patient. now rewrite H.
  - intros id row.
    assert (Hf : name_taken db n = false).
    { destruct (name_taken db n) eqn:E; [|reflexivity].
      apply name_taken_iff in E. destruct E as [p [Hin Hp]].
      now destruct (H p Hin). }
    unfold add_patient, insert_patient. rewrite Hf.
    eexists. split; [reflexivity|]. simpl.
    repeat split. unfold get_patient_by_name. simpl.
    now apply find_app_fresh.
Qed.

(** The insertion that [add_reading] runs never looks at the patients. *)
Lemma add_reading_appends (db : database) (patient_id : Z) (v : Q)
    (status condition timestamp : string) :
  add_reading db patient_id v status condition timestamp =
  Ok (mk_database (patients db)
        (readings db ++ [mk_reading (readings_seq db + 1) patient_id v
                           status condition timestamp])%list
        (goals db) (patients_seq db) (readings_seq db + 1) (goals_seq db)).
Proof. reflexivity. Qed.

(** On a connection that had switched the check on, the same statement
    would be refused for an unknown patient. *)
Lemma insert_reading_enforced (db : database) (patient_id : Z) (v : Q)
    (status condition timestamp : string) :
  patient_exists db patient_id = false ->
  insert_reading (mk_connection true) db patient_id v status condition
    timestamp = IntegrityError.
Proof. intros H. unfold insert_reading. simpl. now rewrite H. Qed.

(** C3, at a store with no patient at all: [add_reading] for patient 999
    raises nothing, the row is stored, and [get_readings] returns it. *)
Theorem add_reading_unknown_patient_stored :
  let db := init_database None in
  let row :=
    mk_reading 1 999 100 "NORMAL" "Fasting" "2024-01-01 10:00:00" in
  patient_exists db 999 = false /\
  exists db',
    add_reading db 999 100 "NORMAL" "Fasting" "2024-01-01 10:00:00"
      = Ok db' /\
    readings db' = [row] /\
    patients db' = [] /\
    forall now, get_readings db' now 999 None = [row].
Proof.
  split; [reflexivity|].
  eexists. split; [reflexivity|]. repeat split.
Qed.

(** *** Windows of readings *)

Lemma timestamp_desc_total (a b : reading) :
  timestamp_desc a b = true \/ timestamp_desc b a = true.
Proof. unfold timestamp_desc. destruct (String.leb_total (r_timestamp a) (r_timestamp b)); auto. Qed.

Lemma timestamp_desc_trans (a b c : reading) :
  timestamp_desc a b = true -> timestamp_desc b c = true ->
  timestamp_desc a c = true.
Proof. unfold timestamp_desc. intros H1 H2. exact (string_leb_trans _ _ _ H2 H1). Qed.

Lemma sort_newest_first (l : list reading) :
  StronglySorted Spec.newest_first (sort timestamp_desc l).
Proof.
  exact (sort_sorted timestamp_desc timestamp_desc_total timestamp_desc_trans l).
Qed.

Lemma pad_length (width : nat) (n : Z) : String.length (pad width n) = width.
Proof.
  unfold pad.
  assert (H : forall w n acc,
             String.length (digits w n acc) = (w + String.length acc)%nat).
  { induction w as [|w IH]; intros m acc; simpl; [reflexivity|].
    rewrite IH. simpl. lia. }
  rewrite H. simpl. lia.
Qed.

Lemma string_length_app (s t : string) :
  String.length (s ++ t) = (String.length s + String.length t)%nat.
Proof. induction s as [|c s IH]; simpl; [reflexivity|]. now rewrite IH. Qed.

Lemma strftime_date_length (dt : datetime) :
  String.length (strftime_date dt) = 10%nat.
Proof.
  unfold strftime_date. rewrite !string_length_app, !pad_length. reflexivity.
Qed.

(** C5: for a positive [days], [get_readings] returns the rows of the
    patient whose timestamp is not below the cutoff in the order of text,
    each as often as it is stored, newest first.  The cutoff is the date
    [days] days before the date of [now], whatever the time of day of
    [now]: it is a date of the calendar, its ordinal is that of [now] less
    [days], walking [days] days on from it ends on the date of [now], and
    its text is ten characters, the year, the month and the day in digits
    with a dash between them -- the year in full as long as the date is
    one of [datetime], whose ordinals go from 1 to 3652059. *)
Theorem get_readings_window (db : database) (now : datetime)
    (patient_id days : Z) :
  (0 < days)%Z ->
  let cutoff := strftime_date (sub_days now days) in
  let rows := get_readings db now patient_id (Some days) in
  Permutation rows
    (filter (fun r => (r_patient_id r =? patient_id)%Z
                      && String.leb cutoff (r_timestamp r))
       (readings db)) /\
  (forall r, In r rows <->
     In r (readings db) /\ r_patient_id r = patient_id /\
     String.leb cutoff (r_timestamp r) = true) /\
  StronglySorted Spec.newest_first rows /\
  String.length cutoff = 10%nat /\
  cutoff = strftime_date
             (sub_days (mk_datetime (year now) (month now) (day now) 0 0 0)
                days) /\
  Gregorian.valid_date (Gregorian.date_of (sub_days now days)) = true /\
  Gregorian.toordinal (Gregorian.date_of (sub_days now days))
    = (Gregorian.toordinal (Gregorian.date_of now) - days)%Z /\
  (Gregorian.valid_date (Gregorian.date_of now) = true ->
   Nat.iter (Z.to_nat days) Gregorian.next_day
     (Gregorian.date_of (sub_days now days)) = Gregorian.date_of now) /\
  exists yyyy mm dd : string,
    cutoff = (yyyy ++ "-" ++ mm ++ "-" ++ dd)%string /\
    String.length yyyy = 4%nat /\ String.length mm = 2%nat /\
    String.length dd = 2%nat /\
    Gregorian.int mm = month (sub_days now days) /\
    Gregorian.int dd = day (sub_days now days) /\
    ((1 <= Gregorian.toordinal (Gregorian.date_of now) - days <= 3652059)%Z ->
     (1 <= year (sub_days now days) <= 9999)%Z /\
     Gregorian.int yyyy = year (sub_days now days)).
Proof.
  intros Hd cutoff rows.
  assert (Hrows : rows = sort timestamp_desc
            (filter (fun r => (r_patient_id r =? patient_id)%Z
                              && String.leb cutoff (r_timestamp r))
               (readings db))).
  { unfold rows, get_readings, truthy, days_of.
    destruct (Z.eqb_spec days 0); [lia|reflexivity]. }
  split; [|split; [|split; [|split; [|split; [|split; [|split; [|split]]]]]]].
  - rewrite Hrows. symmetry. apply sort_perm.
  - intros r. rewrite Hrows.
    split.
    + intros Hin. apply (Permutation_in r (Permutation_sym (sort_perm _ _))) in Hin.
      apply filter_In in Hin. destruct Hin as [Hin Hc].
      apply andb_true_iff in Hc. destruct Hc as [Hp Hc].
      apply Z.eqb_eq in Hp. auto.
    + intros [Hin [Hp Hc]].
      apply (Permutation_in r (sort_perm _ _)).
      apply filter_In. split; [exact Hin|].
      apply andb_true_iff. split; [now apply Z.eqb_eq|exact Hc].
  - rewrite Hrows. apply sort_newest_first.
  - apply strftime_date_length.
  - unfold cutoff, sub_days. simpl.
    now destruct (ord2ymd (ymd2ord (year now) (month now) (day now) - days))
      as [[y m] d].
  - rewrite sub_days_date. apply ord2ymd_valid.
  - rewrite sub_days_date. apply toordinal_ord2ymd.
  - intros Hv. apply sub_days_walk; [lia|exact Hv].
  - pose proof (ord2ymd_valid
                  (Gregorian.toordinal (Gregorian.date_of now) - days)) as Hv.
    rewrite <- sub_days_date in Hv.
    exists (pad 4 (year (sub_days now days))),
           (pad 2 (month (sub_days now days))),
           (pad 2 (day (sub_days now days))).
    split; [reflexivity|]. rewrite !pad_length.
    split; [reflexivity|]. split; [reflexivity|]. split; [reflexivity|].
    destruct (date_in_digits (sub_days now days) Hv) as [Hmm [Hdd Hyyyy]].
    split; [exact Hmm|]. split; [exact Hdd|].
    intros Hrange.
    pose proof (sub_days_year_range now days Hrange) as Hy.
    split; [exact Hy|]. apply Hyyyy. lia.
Qed.

(** C10: with [days = 0] the window is not applied: the call returns what
    the call without [days] returns, which is every reading of the patient,
    newest first. *)
Theorem get_readings_zero_days (db : database) (now : datetime)
    (patient_id : Z) :
  get_readings db now patient_id (Some 0%Z)
    = get_readings db now patient_id None /\
  Permutation (get_readings db now patient_id (Some 0%Z))
    (filter (fun r => (r_patient_id r =? patient_id)%Z) (readings db)) /\
  StronglySorted Spec.newest_first (get_readings db now patient_id (Some 0%Z)).
Proof.
  split; [reflexivity|]. unfold get_readings. simpl. split.
  - symmetry. apply sort_perm.
  - apply sort_newest_first.
Qed.

(** *** Goals *)

Lemma filter_map_goals (f : goal -> goal) (pid : Z) (l : list goal) :
  (forall g, g_patient_id (f g) = g_patient_id g) ->
  filter (fun g => (g_patient_id g =? pid)%Z) (map f l)
  = map f (filter (fun g => (g_patient_id g =? pid)%Z) l).
Proof.
  intros Hf. induction l as [|g l IH]; simpl; [reflexivity|].
  rewrite Hf. destruct (g_patient_id g =? pid)%Z; simpl; now rewrite IH.
Qed.

(** C9: [add_goal] stores the new goal with [current_value] 0 and
    [achieved] 0, and [get_goals] returns it so; after
    [update_goal_progress goal_id v a], [get_goals] returns the goals it
    returned before with [current_value] and [achieved] of the goal
    [goal_id] replaced by [v] and [a] as passed, whatever its
    [target_value], which stays as it was, as do the other goals. *)
Theorem goal_progress_overwrite :
  (forall db patient_id goal_type target_value start_date end_date,
     let created :=
       mk_goal (goals_seq db + 1) patient_id goal_type target_value 0
         start_date end_date 0 in
     exists db',
       add_goal db patient_id goal_type target_value start_date end_date
         = Ok db' /\
       goals db' = (goals db ++ [created])%list /\
       get_goals db' patient_id
         = (get_goals db patient_id ++ [created])%list /\
       g_current_value created == 0 /\ g_achieved created = 0%Z) /\
  (forall db goal_id v a patient_id,
     let db' := update_goal_progress db goal_id v a in
     get_goals db' patient_id
       = map (fun g => if (g_id g =? goal_id)%Z then with_progress g v a
                       else g)
           (get_goals db patient_id) /\
     (forall g, In g (get_goals db' patient_id) -> g_id g = goal_id ->
        g_current_value g = v /\ g_achieved g = a) /\
     (forall g, In g (get_goals db patient_id) -> g_id g = goal_id ->
        In (with_progress g v a) (get_goals db' patient_id))).
Proof.
  split.
  - intros db pid ty tv sd ed created.
    eexists. split; [reflexivity|]. simpl.
    split; [reflexivity|]. split; [|split; reflexivity].
    unfold get_goals. simpl. rewrite filter_app. simpl.
    now rewrite Z.eqb_refl.
  - intros db gid v a pid db'.
    assert (E : get_goals db' pid
                = map (fun g => if (g_id g =? gid)%Z then with_progress g v a
                                else g) (get_goals db pid)).
    { unfold db', get_goals, update_goal_progress. simpl.
      apply (filter_map_goals
               (fun g => if (g_id g =? gid)%Z then with_progress g v a else g)).
      intros g. now destruct (g_id g =? gid)%Z. }
    split; [exact E|]. split.
    + intros g Hin Hid. rewrite E in Hin. apply in_map_iff in Hin.
      destruct Hin as [g0 [Hg _]].
      destruct (Z.eqb_spec (g_id g0) gid) as [_|Hne].
      * subst g. now split.
      * subst g. contradiction.
    + intros g Hin Hid. rewrite E. apply in_map_iff. exists g.
      split; [|exact Hin]. apply Z.eqb_eq in Hid. now rewrite Hid.
Qed.

(** ** Statistics *)

Import StatisticsCalculator.

Lemma Qnat_pos (n : nat) : 0 < Qnat (S n).
Proof.
  unfold Qnat, Qlt. simpl. lia.
Qed.

Lemma Qnat_S (n : nat) : Qnat (S n) == Qnat n + 1.
Proof.
  unfold Qnat. rewrite Nat2Z.inj_succ, <- Z.add_1_r, inject_Z_plus.
  reflexivity.
Qed.

Lemma true_div_returns (a : Q) (n : nat) :
  true_div a (Qnat (S n)) = Returns (a / Qnat (S n)).
Proof.
  unfold true_div.
  destruct (Qeq_bool (Qnat (S n)) 0) eqn:E; [|reflexivity].
  apply Qeq_bool_iff in E. pose proof (Qnat_pos n). exfalso. qlra.
Qed.

(** *** [min] and [max] *)

Lemma fold_min_spec (l : list Q) (v : Q) :
  let m := fold_left (fun m x => if Qltb x m then x else m) l v in
  In m (v :: l) /\ Forall (fun x => m <= x) (v :: l).
Proof.
  revert v. induction l as [|x l IH]; intros v; simpl.
  - split; [now left|]. repeat constructor. qlra.
  - destruct (IH (if Qltb x v then x else v)) as [Hin Hall].
    simpl in Hin. inversion Hall as [|y l' Hy Hl]; subst.
    split.
    + destruct Hin as [Hin|Hin]; [|now right; right].
      rewrite <- Hin. destruct (Qltb x v); [right; now left|now left].
    + destruct (Qltb_spec x v); repeat constructor; auto; qlra.
Qed.

Lemma fold_max_spec (l : list Q) (v : Q) :
  let m := fold_left (fun m x => if Qltb m x then x else m) l v in
  In m (v :: l) /\ Forall (fun x => x <= m) (v :: l).
Proof.
  revert v. induction l as [|x l IH]; intros v; simpl.
  - split; [now left|]. repeat constructor. qlra.
  - destruct (IH (if Qltb v x then x else v)) as [Hin Hall].
    simpl in Hin. inversion Hall as [|y l' Hy Hl]; subst.
    split.
    + destruct Hin as [Hin|Hin]; [|now right; right].
      rewrite <- Hin. destruct (Qltb v x); [right; now left|now left].
    + destruct (Qltb_spec v x); repeat constructor; auto; qlra.
Qed.

(** *** The median *)

Lemma sort_Qle (l : list Q) : StronglySorted Qle (sort Qleb l).
Proof.
  pose proof (sort_sorted Qleb Qleb_total Qleb_trans l) as H.
  induction H as [|a l' _ IH Ha]; constructor; [exact IH|].
  eapply Forall_impl; [|exact Ha]. intros b Hb. cbv beta in Hb.
  destruct (Qleb_spec a b); [assumption|discriminate].
Qed.

Lemma sorted_count_le (l : list Q) (i : nat) :
  StronglySorted Qle l -> (i < List.length l)%nat ->
  (i + 1 <= count_if (fun v => Qleb v (nth i l 0%Q)) l)%nat.
Proof.
  intros Hs. revert i. induction Hs as [|a l Hs IH Ha]; intros i Hi; simpl in Hi.
  - lia.
  - destruct i as [|i]; simpl.
    + destruct (Qleb_spec a a) as [_|n]; [lia|]. exfalso. apply n. qlra.
    + assert (Hi' : (i < List.length l)%nat) by lia.
      specialize (IH i Hi').
      assert (Hle : a <= nth i l 0).
      { rewrite Forall_forall in Ha. apply Ha. now apply nth_In. }
      destruct (Qleb_spec a (nth i l 0)); [lia|contradiction].
Qed.





Lemma median_returns (v : Q) (vs : list Q) :
  statistics.median (v :: vs) = Returns (Spec.middle (sort Qleb (v :: vs))).
Proof.
  unfold statistics.median, Spec.middle. cbv zeta.
  rewrite sort_length.
  change (List.length (v :: vs)) with (S (List.length vs)).
  rewrite <- Nat.bit0_eqb, Nat.bit0_odd.
  change (S (List.length vs) =? 0)%nat with false. cbv iota.
  now destruct (Nat.odd (S (List.length vs))).
Qed.

(** *** The standard deviation *)

Lemma Qsum_squares_nonneg (c : Q) (l : list Q) :
  0 <= Qsum (map (fun x => (x - c) * (x - c)) l).
Proof.
  induction l as [|a l IH]; simpl; [qlra|].
  pose proof (Qsqr_nonneg (a - c)) as H. simpl in H. qlra.
Qed.

Lemma sample_variance_nonneg (V : list Q) : 0 <= Spec.sample_variance V.
Proof.
  unfold Spec.sample_variance.
  destruct V as [|v [|w vs]]; simpl List.length.
  - change (0 =? 1)%nat with false. cbv iota.
    unfold Qdiv. simpl. qlra.
  - change (1 =? 1)%nat with true. cbv iota. qlra.
  - change (S (S (List.length vs)) =? 1)%nat with false. cbv iota.
    apply Qle_shift_div_l.
    + rewrite Qnat_S. pose proof (Qnat_pos (List.length vs)). qlra.
    + rewrite Qmult_0_l. apply Qsum_squares_nonneg.
Qed.

Lemma std_dev_returns (v : Q) (vs : list Q) :
  (if (1 <? List.length (v :: vs))%nat
   then statistics.stdev (v :: vs) else Returns 0%R)
  = Returns (sqrt (Q2R (Spec.sample_variance (v :: vs)))).
Proof.
  destruct vs as [|w vs].
  - simpl. unfold Spec.sample_variance. simpl.
    f_equal. unfold Q2R. simpl. rewrite Rmult_0_l. symmetry. apply sqrt_0.
  - reflexivity.
Qed.

Lemma sqrt_variance (V : list Q) :
  let sd := sqrt (Q2R (Spec.sample_variance V)) in
  (0 <= sd)%R /\ (sd * sd = Q2R (Spec.sample_variance V))%R.
Proof.
  split; [apply sqrt_pos|]. apply sqrt_sqrt.
  replace 0%R with (Q2R 0) by (unfold Q2R; simpl; Lra.lra).
  apply Qle_Rle, sample_variance_nonneg.
Qed.

(** *** What a call on a list that is not empty returns *)

Lemma calculate_statistics_returns (r : reading) (rs : list reading) :
  let v := r_glucose_value r in
  let vs := map r_glucose_value rs in
  let V := v :: vs in
  let normal_count := count_if (fun v => Qleb 70 v && Qleb v 140) V in
  let lo := fold_left (fun m x => if Qltb x m then x else m) vs v in
  let hi := fold_left (fun m x => if Qltb m x then x else m) vs v in
  calculate_statistics (r :: rs) =
  Returns (Some (mk_stats
    (List.length V) (Spec.mean V) (Spec.middle (sort Qleb V))
    (sqrt (Q2R (Spec.sample_variance V)))
    lo hi (hi - lo)
    (Qnat normal_count / Qnat (List.length V) * 100)
    (Binary64.round1 (Binary64.a1c_quotient (Binary64.float_of_Q (Spec.mean V))))
    (count_if (fun v => Qltb v 54) V)
    (count_if (fun v => Qleb 54 v && Qltb v 70) V)
    normal_count
    (count_if (fun v => Qltb 140 v && Qleb v 180) V)
    (count_if (fun v => Qltb 180 v) V))).
Proof.
  intros v vs V normal_count lo hi. subst V normal_count lo hi.
  unfold calculate_statistics. cbv zeta.
  change (map r_glucose_value (r :: rs)) with (v :: vs).
  change (statistics.mean (v :: vs)) with (Returns (Spec.mean (v :: vs))).
  rewrite median_returns, std_dev_returns.
  unfold py_min, py_max.
  change (List.length (v :: vs)) with (S (List.length vs)).
  rewrite true_div_returns. reflexivity.
Qed.

(** *** The aggregate *)


(** The sum of the squared deviations that [_ss] computes is the one of
    the definition. *)
Lemma Qsum_squared_deviations (c : Q) (l : list Q) :
  Qsum (map (fun x => (x - c) * (x - c)) l)
  == Qsum (map (fun x => x * x) l) - 2 * c * Qsum l
     + Qnat (List.length l) * (c * c).
Proof.
  induction l as [|a l IH].
  - simpl. change (Qnat 0) with 0. ring.
  - cbn [map Qsum fold_right List.length]. fold (Qsum l) in *.
    fold (Qsum (map (fun x => (x - c) * (x - c)) l)).
    fold (Qsum (map (fun x => x * x) l)).
    rewrite IH, Qnat_S. ring.
Qed.

Lemma ss_is_sum_of_squares (v : Q) (vs : list Q) :
  let V := v :: vs in
  (Qnat (List.length V) * Qsum (map (fun x => x * x) V) - Qsum V * Qsum V)
  / Qnat (List.length V)
  == Qsum (map (fun x => (x - Spec.mean V) * (x - Spec.mean V)) V).
Proof.
  intros V. rewrite Qsum_squared_deviations. unfold Spec.mean.
  pose proof (Qnat_pos (List.length vs)) as Hpos.
  change (S (List.length vs)) with (List.length V) in Hpos.
  generalize dependent (Qnat (List.length V)). intros n Hpos.
  field. intros E. rewrite E in Hpos. now apply Qlt_irrefl in Hpos.
Qed.

Lemma int_true_div_returns (a b : Z) :
  b <> 0%Z ->
  Float64.int_true_div a b
  = Returns (Float64.of_Q (inject_Z a / inject_Z b)).
Proof.
  intros Hb. unfold Float64.int_true_div.
  now destruct (Z.eqb_spec b 0).
Qed.

Lemma float_sqrt_of_frac_returns (n m : Z) :
  exists x, Float64.float_sqrt_of_frac n m = Returns x.
Proof.
  unfold Float64.float_sqrt_of_frac. cbv zeta.
  destruct (Z.leb_spec 0
              ((Float64.bit_length n - Float64.bit_length m
                - Float64.sqrt_bit_width) / 2)) as [Hq|Hq].
  - eexists. apply int_true_div_returns. discriminate.
  - eexists. apply int_true_div_returns.
    rewrite Z.shiftl_1_l. apply Z.pow_nonzero; lia.
Qed.

Lemma float64_median_returns (v : Q) (vs : list Q) :
  Float64.statistics.median (v :: vs)
  = Returns (Float64.middle (sort Qleb (v :: vs))).
Proof.
  unfold Float64.statistics.median, Float64.middle. cbv zeta.
  rewrite sort_length.
  change (List.length (v :: vs)) with (S (List.length vs)).
  rewrite <- Nat.bit0_eqb, Nat.bit0_odd.
  change (S (List.length vs) =? 0)%nat with false. cbv iota.
  now destruct (Nat.odd (S (List.length vs))).
Qed.

Lemma float64_stdev_is_root (v w : Q) (vs : list Q) :
  Float64.statistics.stdev (v :: w :: vs)
  = Float64.sqrt_of_Q (Spec.sample_variance (v :: w :: vs)).
Proof.
  unfold Float64.statistics.stdev, Float64.sqrt_of_Q. cbv zeta.
  change (List.length (v :: w :: vs) <? 2)%nat with false. cbv iota.
  rewrite (Qred_complete _ (Spec.sample_variance (v :: w :: vs)));
    [reflexivity|].
  unfold Spec.sample_variance.
  change (List.length (v :: w :: vs) =? 1)%nat with false. cbv iota.
  now rewrite (ss_is_sum_of_squares v (w :: vs)).
Qed.

Section Aggregate.

Import PrimFloat.

(** What the call returns on a list that is not empty, [std_dev] apart. *)
Lemma float64_calculate_statistics_returns (r : reading) (rs : list reading) :
  let v := r_glucose_value r in
  let vs := map r_glucose_value rs in
  let V := v :: vs in
  let normal_count := count_if (fun v => Qleb 70 v && Qleb v 140) V in
  let lo := fold_left (fun m x => if Qltb x m then x else m) vs v in
  let hi := fold_left (fun m x => if Qltb m x then x else m) vs v in
  exists sd,
    (if (1 <? List.length V)%nat
     then Float64.statistics.stdev V else Returns 0%float) = Returns sd /\
    Float64.calculate_statistics (r :: rs) =
    Returns (Some (Float64.mk_stats
      (List.length V) (Float64.of_Q (Spec.mean V))
      (Float64.middle (sort Qleb V)) sd
      (Float64.of_Q lo) (Float64.of_Q hi)
      (Float64.of_Q hi - Float64.of_Q lo)%float
      (Float64.of_Q (Qnat normal_count / Qnat (List.length V)) * 100)%float
      (Binary64.round1 (Binary64.a1c_quotient (Float64.of_Q (Spec.mean V))))
      (count_if (fun v => Qltb v 54) V)
      (count_if (fun v => Qleb 54 v && Qltb v 70) V)
      normal_count
      (count_if (fun v => Qltb 140 v && Qleb v 180) V)
      (count_if (fun v => Qltb 180 v) V))).
Proof.
  intros v vs V normal_count lo hi. subst V normal_count lo hi.
  assert (Hsd : exists sd,
            (if (1 <? List.length (v :: vs))%nat
             then Float64.statistics.stdev (v :: vs)
             else Returns 0%float)
            = Returns sd).
  { destruct vs as [|w vs'].
    - eexists. reflexivity.
    - change (1 <? List.length (v :: w :: vs'))%nat with true. cbv iota.
      rewrite float64_stdev_is_root.
      apply float_sqrt_of_frac_returns. }
  destruct Hsd as [sd Hsd]. exists sd. split; [exact Hsd|].
  unfold Float64.calculate_statistics. cbv zeta.
  change (map r_glucose_value (r :: rs)) with (v :: vs).
  change (Float64.statistics.mean (v :: vs))
    with (Returns (Float64.of_Q (Spec.mean (v :: vs)))).
  rewrite float64_median_returns.
  unfold py_min, py_max.
  rewrite int_true_div_returns
    by (change (List.length (v :: vs)) with (S (List.length vs)); lia).
  unfold bind at 1 2.
  destruct (if (1 <? List.length (v :: vs))%nat
            then Float64.statistics.stdev (v :: vs)
            else Returns 0%float) as [sd'|] eqn:E;
    [|discriminate].
  injection Hsd as ->. reflexivity.
Qed.


(** The three sample lists, every field: the values that the source
    returns for them. *)
Example float64_sample_aggregates :
  Float64.calculate_statistics Examples.five_readings
  = Returns (Some (Float64.mk_stats 5 140 140 31.622776601683793 100 180 80
                     60 6.5 0 0 3 2 0)) /\
  Float64.calculate_statistics Rounding.three_readings
  = Returns (Some (Float64.mk_stats 3 133.66666666666666 101
                     57.44852768638491 100 200 100 66.66666666666666 6.3
                     0 0 2 0 1)) /\
  Float64.calculate_statistics Rounding.seven_of_25
  = Returns (Some (Float64.mk_stats 25 172 200 45.8257569495584 100 200 100
                     28.000000000000004 7.6 0 0 7 0 18)).
Proof. repeat split; vm_compute; reflexivity. Qed.

(** Where nothing is rounded the doubles are the exact values: the
    aggregate of doubles and the aggregate in exact arithmetic have the same
    counts and the same estimated A1C, and the least and the greatest value
    and the mean of the one are those of the other as doubles. *)
Lemma doubles_of_exact_aggregate (r : reading) (rs : list reading) :
  exists s e,
    Float64.calculate_statistics (r :: rs) = Returns (Some s) /\
    calculate_statistics (r :: rs) = Returns (Some e) /\
    Float64.count s = count e /\
    Float64.average s = Float64.of_Q (average e) /\
    Float64.min s = Float64.of_Q (StatisticsCalculator.min e) /\
    Float64.max s = Float64.of_Q (StatisticsCalculator.max e) /\
    Float64.estimated_a1c s = estimated_a1c e /\
    Float64.critical_low s = critical_low e /\
    Float64.warning_low s = warning_low e /\
    Float64.normal s = normal e /\
    Float64.warning_high s = warning_high e /\
    Float64.critical_high s = critical_high e.
Proof.
  destruct (float64_calculate_statistics_returns r rs) as [sd [_ E]].
  eexists. eexists. split; [exact E|].
  split; [apply calculate_statistics_returns|].
  repeat split; reflexivity.
Qed.

End Aggregate.

(** C7: on no readings at all [calculate_statistics] returns [None], not
    an aggregate, zero-filled or other; and [None] is returned for the
    empty list only. *)
Theorem calculate_statistics_empty :
  calculate_statistics [] = Returns None /\
  (forall s, calculate_statistics [] <> Returns (Some s)) /\
  (forall rows, calculate_statistics rows = Returns None <-> rows = []).
Proof.
  split; [reflexivity|]. split; [discriminate|].
  intros [|r rs]; split; try easy.
  rewrite calculate_statistics_returns. discriminate.
Qed.

(** *** Buckets and statuses *)

Import GlucoseAnalyzer.

Lemma Qltb_lt (x y : Q) : Qltb x y = true <-> x < y.
Proof. destruct (Qltb_spec x y); split; try easy. Qed.

Lemma Qleb_le (x y : Q) : Qleb x y = true <-> x <= y.
Proof. destruct (Qleb_spec x y); split; try easy. Qed.

Lemma bucket_is_status (now : datetime) (v : Q) :
  Qltb v 54 = (status (analyze now v) =? "CRITICAL LOW")%string /\
  Qleb 54 v && Qltb v 70 = (status (analyze now v) =? "WARNING LOW")%string /\
  Qleb 70 v && Qleb v 140 = (status (analyze now v) =? "NORMAL")%string /\
  Qltb 140 v && Qleb v 180
    = (status (analyze now v) =? "WARNING HIGH")%string /\
  Qltb 180 v = (status (analyze now v) =? "CRITICAL HIGH")%string.
Proof.
  unfold analyze, CRITICAL_LOW, WARNING_LOW, NORMAL_HIGH, WARNING_HIGH.
  destruct (Qltb_spec v 54); destruct (Qltb_spec v 70); try (exfalso; qlra);
    destruct (Qleb_spec v 140); try (exfalso; qlra);
    destruct (Qleb_spec v 180); try (exfalso; qlra);
    destruct (Qleb_spec 54 v); try (exfalso; qlra);
    destruct (Qleb_spec 70 v); try (exfalso; qlra);
    destruct (Qltb_spec 140 v); try (exfalso; qlra);
    destruct (Qltb_spec 180 v); try (exfalso; qlra);
    repeat split; reflexivity.
Qed.

Lemma buckets_partition (V : list Q) :
  (count_if (fun v => Qltb v 54) V
   + count_if (fun v => Qleb 54 v && Qltb v 70) V
   + count_if (fun v => Qleb 70 v && Qleb v 140) V
   + count_if (fun v => Qltb 140 v && Qleb v 180) V
   + count_if (fun v => Qltb 180 v) V = List.length V)%nat.
Proof.
  induction V as [|v V IH]; simpl; [reflexivity|].
  destruct (Qltb_spec v 54); destruct (Qltb_spec v 70); try (exfalso; qlra);
    destruct (Qleb_spec v 140); try (exfalso; qlra);
    destruct (Qleb_spec v 180); try (exfalso; qlra);
    destruct (Qleb_spec 54 v); try (exfalso; qlra);
    destruct (Qleb_spec 70 v); try (exfalso; qlra);
    destruct (Qltb_spec 140 v); try (exfalso; qlra);
    destruct (Qltb_spec 180 v); try (exfalso; qlra);
    simpl; lia.
Qed.

(** C8: each bucket of [calculate_statistics] counts the values that
    [analyze] gives the status of that bucket -- a value is in a bucket's
    range exactly when [analyze] returns the bucket's status, the normal
    bucket being [70 <= v <= 140] -- and the five buckets add up to
    [count]. *)
Theorem buckets_match_classification (now : datetime) :
  (forall v,
     (v < 54 <-> status (analyze now v) = "CRITICAL LOW") /\
     (54 <= v /\ v < 70 <-> status (analyze now v) = "WARNING LOW") /\
     (70 <= v /\ v <= 140 <-> status (analyze now v) = "NORMAL") /\
     (140 < v /\ v <= 180 <-> status (analyze now v) = "WARNING HIGH") /\
     (180 < v <-> status (analyze now v) = "CRITICAL HIGH")) /\
  (forall r rs,
     let V := map r_glucose_value (r :: rs) in
     let has (st : string) :=
       count_if (fun v => (status (analyze now v) =? st)%string) V in
     exists s,
       calculate_statistics (r :: rs) = Returns (Some s) /\
       critical_low s = has "CRITICAL LOW" /\
       warning_low s = has "WARNING LOW" /\
       normal s = has "NORMAL" /\
       warning_high s = has "WARNING HIGH" /\
       critical_high s = has "CRITICAL HIGH" /\
       (critical_low s + warning_low s + normal s + warning_high s
        + critical_high s = count s)%nat).
Proof.
  split.
  - intros v.
    destruct (bucket_is_status now v) as (E1 & E2 & E3 & E4 & E5).
    rewrite <- !String.eqb_eq, <- E1, <- E2, <- E3, <- E4, <- E5.
    rewrite !andb_true_iff, !Qltb_lt, !Qleb_le. tauto.
  - intros r rs V has.
    eexists. split; [apply calculate_statistics_returns|].
    cbn [count critical_low warning_low normal warning_high critical_high].
    fold V. unfold has.
    repeat split; try (apply count_if_ext; intros v _;
                       destruct (bucket_is_status now v) as (E1 & E2 & E3 & E4 & E5);
                       assumption).
    apply buckets_partition.
Qed.

(** *** The estimated A1C *)

Section EstimatedA1C.

Import PrimFloat.

Example float_of_Q_values :
  Binary64.float_of_Q (1 # 3) = (1 / 3)%float /\
  Binary64.float_of_Q 161.375 = 161.375%float /\
  Binary64.float_of_Q (72 # 10) = 7.2%float.
Proof. repeat split; vm_compute; reflexivity. Qed.

Example round1_values :
  Binary64.round1 0.25 = 0.2%float /\
  Binary64.round1 0.75 = 0.8%float /\
  Binary64.round1 2.675 = 2.7%float /\
  Binary64.round1 6.505226480836237 = 6.5%float /\
  Binary64.round1 (-0.01) = (-0)%float.
Proof. repeat split; vm_compute; reflexivity. Qed.

(** The share of the sample list on doubles: 3 / 5 * 100 is 60. *)
Example time_in_range_on_doubles : (3 / 5 * 100 = 60)%float.
Proof. vm_compute. reflexivity. Qed.

Lemma round_half_even_nearest (t : Q) :
  Spec.nearest_ties_even t (Binary64.round_half_even t).
Proof.
  unfold Spec.nearest_ties_even, Binary64.round_half_even. cbv zeta.
  pose proof (Qfloor_le t) as Hlo. pose proof (Qlt_floor t) as Hhi.
  rewrite inject_Z_plus in Hhi.
  change (inject_Z 1) with 1 in Hhi.
  destruct (Qcompare_spec (t - inject_Z (Qfloor t)) (1 # 2)) as [E|E|E].
  - right. destruct (Z.even (Qfloor t)) eqn:Ev.
    + split; [right; qlra|exact Ev].
    + split.
      * left. rewrite inject_Z_plus. change (inject_Z 1) with 1. qlra.
      * rewrite Z.add_1_r, Z.even_succ, <- Z.negb_even, Ev. reflexivity.
  - left. split; qlra.
  - left. rewrite inject_Z_plus. change (inject_Z 1) with 1. split; qlra.
Qed.

(** C6, as the code has it: [estimated_a1c] is [round(x, 1)] of the double
    [x = (average + 46.7) / 28.7], where [average] is the mean of the
    values: the double nearest to [k / 10] for the integer [k] nearest to
    [10 x], the even one of the two when [10 x] lies halfway (a zero keeps
    the sign of [x]); a mean of 140 gives 6.5 and the single value 161.375,
    for which [x] is 7.25, gives 7.2. *)
Theorem estimated_a1c_rounds_half_even :
  (forall r rs,
     let V := map r_glucose_value (r :: rs) in
     exists s,
       calculate_statistics (r :: rs) = Returns (Some s) /\
       average s == Spec.mean V /\
       let x := Binary64.a1c_quotient (Binary64.float_of_Q (average s)) in
       match FloatOps.Prim2SF x with
       | SpecFloat.S754_finite sg m e =>
           exists k : Z,
             Spec.nearest_ties_even (Binary64.Q_of_finite sg m e * 10) k /\
             estimated_a1c s =
               if (k =? 0)%Z
               then (if sg then (-0)%float else 0%float)
               else Binary64.float_of_Q (inject_Z k / 10)
       | _ => estimated_a1c s = x
       end) /\
  (exists s,
     calculate_statistics Examples.five_readings = Returns (Some s) /\
     average s == 140 /\ estimated_a1c s = 6.5%float) /\
  (exists s,
     calculate_statistics Examples.tie_reading = Returns (Some s) /\
     average s == 161.375 /\
     Binary64.a1c_quotient (Binary64.float_of_Q (average s)) = 7.25%float /\
     estimated_a1c s = 7.2%float).
Proof.
  split; [|split].
  - intros r rs V.
    eexists. split; [apply calculate_statistics_returns|].
    cbn [average estimated_a1c]. split; [reflexivity|].
    cbv zeta. unfold Binary64.round1.
    destruct (FloatOps.Prim2SF _) as [sg|sg| |sg m e]; try reflexivity.
    exists (Binary64.round_half_even (Binary64.Q_of_finite sg m e * 10)).
    split; [apply round_half_even_nearest|reflexivity].
  - eexists. split; [apply calculate_statistics_returns|].
    cbn [average estimated_a1c]. split; vm_compute; reflexivity.
  - eexists. split; [apply calculate_statistics_returns|].
    cbn [average estimated_a1c]. repeat split; vm_compute; reflexivity.
Qed.

(** C6, as the design document has it, fails on the single value 161.375:
    the mean is 161.375 and [(mean + 46.7) / 28.7] is 7.25, in exact
    arithmetic and on doubles alike, so that rounding its tie upwards gives
    7.3, whereas [calculate_statistics] returns 7.2. *)
Lemma estimated_a1c_half_up_fails :
  let V := map r_glucose_value Examples.tie_reading in
  exists s,
    calculate_statistics Examples.tie_reading = Returns (Some s) /\
    (Spec.mean V + 46.7) / 28.7 == 7.25 /\
    Binary64.a1c_quotient (Binary64.float_of_Q (Spec.mean V)) = 7.25%float /\
    Spec.estimated_a1c V == 7.3 /\
    Binary64.float_of_Q (Spec.estimated_a1c V) = 7.3%float /\
    estimated_a1c s = 7.2%float /\
    estimated_a1c s <> Binary64.float_of_Q (Spec.estimated_a1c V).
Proof.
  eexists. split; [apply calculate_statistics_returns|].
  cbn [estimated_a1c].
  repeat split; try (vm_compute; reflexivity).
  intros E.
  apply (f_equal (fun z => PrimFloat.eqb z 7.2%float)) in E.
  vm_compute in E. discriminate.
Qed.

End EstimatedA1C.

(** ** Instances *)

(** The duplicate of the design document: Alice is added, and added again. *)
Lemma add_patient_unique_name_witness :
  add_patient Examples.alice_db Examples.now0 "Alice" 40 "Type 2"
    = (Examples.alice_db, None) /\
  exists db',
    add_patient empty_database Examples.now0 "Alice" 30 "Type 1"
      = (db', Some 1%Z) /\
    get_patient_by_name db' "Alice"
      = Some (mk_patient 1 "Alice" 30 "Type 1" 70 140 "2024-03-15 09:05:07").
Proof.
  split.
  - apply (proj1 add_patient_unique_name).
    exists (mk_patient 1 "Alice" 30 "Type 1" 70 140 "2024-03-15 09:05:07").
    split; [left|]; reflexivity.
  - destruct (proj2 add_patient_unique_name empty_database Examples.now0
                "Alice" 30%Z "Type 1") as [db' [H1 [_ [_ [_ [H2 _]]]]]].
    + intros p [].
    + exists db'. split; [exact H1|exact H2].
Defined.

(** A window of 30 days on 2024-03-15 starts with 2024-02-14: the reading
    of that day is returned, the one of the evening before is not. *)
Lemma get_readings_window_witness :
  In Examples.recent_reading
    (get_readings Examples.window_db Examples.now0 1 (Some 30%Z)) /\
  ~ In Examples.old_reading
      (get_readings Examples.window_db Examples.now0 1 (Some 30%Z)).
Proof.
  destruct (get_readings_window Examples.window_db Examples.now0 1 30
              eq_refl) as [_ [Hin _]].
  split.
  - refine (proj2 (Hin Examples.recent_reading) _).
    split; [right; left; reflexivity|]. split; reflexivity.
  - intros H.
    destruct (proj1 (Hin Examples.old_reading) H) as [_ [_ Hc]].
    vm_compute in Hc. discriminate.
Defined.

(** A goal with target 80 is set to 85 and achieved: that is what
    [get_goals] returns, and the target is still 80. *)
Lemma goal_progress_overwrite_witness :
  In (mk_goal 1 1 "Time in Range" 80 85 "2024-03-15" "2024-04-14" 1)
    (get_goals (update_goal_progress Examples.goal_db 1 85 1) 1) /\
  forall g,
    In g (get_goals (update_goal_progress Examples.goal_db 1 85 1) 1) ->
    g_id g = 1%Z -> g_current_value g = 85 /\ g_achieved g = 1%Z.
Proof.
  destruct (proj2 goal_progress_overwrite Examples.goal_db 1%Z 85 1%Z 1%Z)
    as [_ [Hall Hin]].
  split.
  - apply (Hin (mk_goal 1 1 "Time in Range" 80 0 "2024-03-15" "2024-04-14" 0)).
    + left. reflexivity.
    + reflexivity.
  - exact Hall.
Defined.

(** * Further properties *)

(** ** The store: targets, ids and names *)

Lemma map_if_none {A : Type} (test : A -> bool) (f : A -> A) (l : list A) :
  existsb test l = false -> map (fun a => if test a then f a else a) l = l.
Proof.
  induction l as [|a l IH]; simpl; [reflexivity|].
  destruct (test a); simpl; [discriminate|]. intros H. now rewrite IH.
Qed.

Lemma find_map_names (f : patient -> patient) (name : string)
    (l : list patient) :
  (forall p, p_name (f p) = p_name p) ->
  find (fun p => (p_name p =? name)%string) (map f l)
  = option_map f (find (fun p => (p_name p =? name)%string) l).
Proof.
  intros Hf. induction l as [|p l IH]; simpl; [reflexivity|].
  rewrite Hf. destruct (p_name p =? name)%string; [reflexivity|exact IH].
Qed.

Lemma update_patient_targets_keys (db : database) (patient_id : Z)
    (target_min target_max : Q) :
  let db' := update_patient_targets db patient_id target_min target_max in
  map p_id (patients db') = map p_id (patients db) /\
  map p_name (patients db') = map p_name (patients db).
Proof.
  simpl. rewrite !map_map.
  split; apply map_ext; intros p; now destruct (p_id p =? patient_id)%Z.
Qed.

(** X1: [update_patient_targets] replaces the two targets of the patient
    with the given id by the values passed -- whatever they are, the
    minimum need not be below the maximum -- and nothing else: ids, names,
    other patients, readings and goals stay; a lookup by name finds the
    same patient as before, with the new targets if it is that one; and
    for an id that no patient has the store is left as it was. *)
Theorem update_patient_targets_overwrite (db : database) (patient_id : Z)
    (target_min target_max : Q) :
  let db' := update_patient_targets db patient_id target_min target_max in
  let set p :=
    if (p_id p =? patient_id)%Z
    then mk_patient (p_id p) (p_name p) (p_age p) (p_diabetes_type p)
           target_min target_max (p_created_date p)
    else p in
  get_patients db' = map set (get_patients db) /\
  map p_id (patients db') = map p_id (patients db) /\
  map p_name (patients db') = map p_name (patients db) /\
  readings db' = readings db /\ goals db' = goals db /\
  (forall p, In p (patients db') -> p_id p = patient_id ->
     p_target_min p = target_min /\ p_target_max p = target_max) /\
  (forall name,
     get_patient_by_name db' name
     = option_map set (get_patient_by_name db name)) /\
  (patient_exists db patient_id = false -> db' = db).
Proof.
  intros db' set.
  assert (Hid : forall p, p_id (set p) = p_id p)
    by (intros p; unfold set; now destruct (p_id p =? patient_id)%Z).
  assert (Hname : forall p, p_name (set p) = p_name p)
    by (intros p; unfold set; now destruct (p_id p =? patient_id)%Z).
  split; [reflexivity|].
  split; [unfold db'; simpl; rewrite map_map; now apply map_ext|].
  split; [unfold db'; simpl; rewrite map_map; now apply map_ext|].
  split; [reflexivity|]. split; [reflexivity|].
  split; [|split].
  - intros p Hin Hp. unfold db' in Hin. simpl in Hin.
    apply in_map_iff in Hin. destruct Hin as [p0 [E _]].
    destruct (Z.eqb_spec (p_id p0) patient_id) as [_|Hne].
    + subst p. now split.
    + subst p. contradiction.
  - intros name. unfold get_patient_by_name, db'. simpl.
    now apply find_map_names.
  - intros Hnone. unfold db', update_patient_targets.
    rewrite (map_if_none (fun p => (p_id p =? patient_id)%Z)) by exact Hnone.
    now destruct db.
Qed.

(** *** Reachable stores are well formed *)

Import Invariant.

Lemma ids_ok_snoc (ids : list Z) (seq : Z) :
  ids_ok ids seq -> ids_ok (ids ++ [seq + 1]%Z)%list (seq + 1)%Z.
Proof.
  intros [Hnd Hle]. split.
  - apply NoDup_app; [exact Hnd|repeat constructor; auto|].
    intros id Hin [E|[]]. subst id.
    rewrite Forall_forall in Hle. specialize (Hle _ Hin). lia.
  - apply Forall_app. split; [|repeat constructor; lia].
    eapply Forall_impl; [|exact Hle]. intros id H. simpl in H. lia.
Qed.

Lemma name_taken_false_notin (db : database) (name : string) :
  name_taken db name = false -> ~ In name (map p_name (patients db)).
Proof.
  intros Hf Hin. apply in_map_iff in Hin. destruct Hin as [p [Hp Hin]].
  assert (name_taken db name = true)
    by (apply name_taken_iff; now exists p).
  congruence.
Qed.

Ltac wf_split := unfold well_formed; simpl; split; [|split; [|split]].

Lemma well_formed_add_patient (db : database) (now : datetime)
    (name : string) (age : Z) (ty : string) :
  well_formed db -> well_formed (fst (add_patient db now name age ty)).
Proof.
  intros (Hp & Hr & Hg & Hn). unfold add_patient, insert_patient.
  destruct (name_taken db name) eqn:E; wf_split; try assumption.
  - rewrite map_app. simpl. now apply ids_ok_snoc.
  - rewrite map_app. simpl.
    apply NoDup_app; [exact Hn|repeat constructor; auto|].
    intros n Hin [En|[]]. subst n.
    now apply (name_taken_false_notin db name).
Qed.

Lemma well_formed_reachable (db : database) :
  reachable db -> well_formed db.
Proof.
  induction 1 as [|db now name age ty _ IH|db pid tmin tmax _ IH
                  |db pid v st c ts db' _ IH E|db pid ty tv sd ed db' _ IH E
                  |db gid cv a _ IH].
  - wf_split; try (split; constructor); constructor.
  - now apply well_formed_add_patient.
  - destruct IH as (Hp & Hr & Hg & Hn).
    destruct (update_patient_targets_keys db pid tmin tmax) as [E1 E2].
    unfold well_formed. rewrite E1, E2. simpl. tauto.
  - rewrite add_reading_appends in E. injection E as <-.
    destruct IH as (Hp & Hr & Hg & Hn).
    wf_split; try assumption.
    rewrite map_app. simpl. now apply ids_ok_snoc.
  - unfold add_goal, insert_goal in E. simpl in E. injection E as <-.
    destruct IH as (Hp & Hr & Hg & Hn).
    wf_split; try assumption.
    rewrite map_app. simpl. now apply ids_ok_snoc.
  - destruct IH as (Hp & Hr & Hg & Hn).
    assert (Eg : map g_id (goals (update_goal_progress db gid cv a))
                 = map g_id (goals db)).
    { simpl. rewrite map_map. apply map_ext. intros g.
      now destruct (g_id g =? gid)%Z. }
    unfold well_formed. rewrite Eg. simpl. tauto.
Qed.

Lemma find_by_name_nodup (l : list patient) (p : patient) :
  NoDup (map p_name l) -> In p l ->
  find (fun q => (p_name q =? p_name p)%string) l = Some p.
Proof.
  induction l as [|q l IH]; simpl; intros Hnd Hin; [contradiction|].
  inversion Hnd as [|n ns Hnotin Hnd']; subst.
  destruct Hin as [E|Hin].
  - subst q. now rewrite String.eqb_refl.
  - destruct (String.eqb_spec (p_name q) (p_name p)) as [E|_].
    + exfalso. apply Hnotin. rewrite E. now apply in_map.
    + now apply IH.
Qed.

(** X2: in a store built by the methods of the class from a new file, the
    ids of each table are pairwise different and none exceeds the table's
    counter; hence the id that [add_patient] returns is the id of no
    patient stored before, and it is not 0, so the caller's test
    [if patient_id:] tells success from failure. *)
Theorem reachable_ids_fresh (db : database) :
  reachable db ->
  NoDup (map p_id (patients db)) /\
  NoDup (map r_id (readings db)) /\
  NoDup (map g_id (goals db)) /\
  Forall (fun id => (1 <= id <= patients_seq db)%Z) (map p_id (patients db)) /\
  (forall now name age ty id,
     snd (add_patient db now name age ty) = Some id ->
     ~ In id (map p_id (patients db)) /\ id <> 0%Z).
Proof.
  intros Hr.
  assert (Hpos : (0 <= patients_seq db)%Z /\
                 Forall (fun id => (1 <= id)%Z) (map p_id (patients db))).
  { clear - Hr.
    induction Hr as [|db now name age ty _ IH|db pid tmin tmax _ IH
                     |db pid v st c ts db' _ IH E|db pid ty tv sd ed db' _ IH E
                     |db gid cv a _ IH].
    - split; [simpl; lia|constructor].
    - destruct IH as [H0 Hall]. unfold add_patient, insert_patient.
      destruct (name_taken db name); simpl; [now split|].
      split; [lia|]. rewrite map_app. apply Forall_app. split; [exact Hall|].
      repeat constructor. simpl. lia.
    - destruct (update_patient_targets_keys db pid tmin tmax) as [E1 _].
      now rewrite E1.
    - rewrite add_reading_appends in E. now injection E as <-.
    - unfold add_goal, insert_goal in E. simpl in E. now injection E as <-.
    - exact IH. }
  destruct (well_formed_reachable db Hr) as ([Hp1 Hp2] & [Hr1 _] & [Hg1 _] & _).
  destruct Hpos as [H0 Hge].
  repeat split; try assumption.
  - rewrite Forall_forall in *. intros id Hin.
    specialize (Hp2 id Hin). specialize (Hge id Hin). simpl in Hp2. lia.
  - unfold add_patient, insert_patient in H.
    destruct (name_taken db name); simpl in H; [discriminate|].
    injection H as <-. intros Hin.
    rewrite Forall_forall in Hp2. specialize (Hp2 _ Hin). simpl in Hp2. lia.
  - unfold add_patient, insert_patient in H.
    destruct (name_taken db name); simpl in H; [discriminate|].
    injection H as <-. lia.
Qed.

(** X3: in such a store no two patients share a name, so a lookup by the
    name of a stored patient returns that very patient; and a lookup finds
    nobody exactly when [add_patient] with that name would succeed. *)
Theorem reachable_names_unique (db : database) :
  reachable db ->
  NoDup (map p_name (get_patients db)) /\
  (forall p, In p (get_patients db) ->
     get_patient_by_name db (p_name p) = Some p) /\
  (forall name now age ty,
     get_patient_by_name db name = None <->
     snd (add_patient db now name age ty) <> None).
Proof.
  intros Hr.
  destruct (well_formed_reachable db Hr) as (_ & _ & _ & Hn).
  split; [exact Hn|]. split.
  - intros p Hin. now apply find_by_name_nodup.
  - intros name now age ty. unfold add_patient, insert_patient.
    unfold get_patient_by_name.
    destruct (name_taken db name) eqn:E; simpl.
    + split; [|intros H; now destruct H].
      intros Hnone. exfalso.
      apply name_taken_iff in E. destruct E as [p [Hin Hp]].
      apply (find_none _ _ Hnone) in Hin. simpl in Hin.
      rewrite Hp, String.eqb_refl in Hin. discriminate.
    + split; [discriminate|]. intros _.
      destruct (find _ (patients db)) as [p|] eqn:F; [|reflexivity].
      exfalso. apply find_some in F. destruct F as [Hin Hp].
      assert (name_taken db name = true)
        by (apply name_taken_iff; exists p; split;
            [exact Hin|now apply String.eqb_eq]).
      congruence.
Qed.

(** ** The store: readings and goals *)

Lemma insert_sorted_head {A : Type} (le : A -> A -> bool) (a : A)
    (l : list A) :
  Forall (fun c => le a c = true) l -> insert_sorted le a l = a :: l.
Proof.
  intros H. destruct H as [|c l Hc _]; simpl; [reflexivity|]. now rewrite Hc.
Qed.

Lemma filter_insert_sorted {A : Type} (le : A -> A -> bool) (p : A -> bool)
    (a : A) (l : list A) :
  (forall x y z, le x y = true -> le y z = true -> le x z = true) ->
  StronglySorted (fun x y => le x y = true) l ->
  filter p (insert_sorted le a l)
  = if p a then insert_sorted le a (filter p l) else filter p l.
Proof.
  intros Htrans Hs. induction Hs as [|b l Hs IH Hb].
  - simpl. now destruct (p a).
  - cbn [insert_sorted]. destruct (le a b) eqn:E.
    + cbn [filter]. destruct (p a); [|reflexivity].
      change (if p b then b :: filter p l else filter p l)
        with (filter p (b :: l)).
      rewrite insert_sorted_head; [reflexivity|].
      apply Forall_forall. intros c Hc. apply filter_In in Hc.
      destruct Hc as [[<-|Hc] _]; [exact E|].
      rewrite Forall_forall in Hb. now apply (Htrans a b c); [|apply Hb].
    + cbn [filter]. rewrite IH.
      destruct (p b), (p a); cbn [insert_sorted]; try reflexivity.
      now rewrite E.
Qed.

Lemma filter_sort {A : Type} (le : A -> A -> bool) (p : A -> bool)
    (l : list A) :
  (forall x y, le x y = true \/ le y x = true) ->
  (forall x y z, le x y = true -> le y z = true -> le x z = true) ->
  filter p (sort le l) = sort le (filter p l).
Proof.
  intros Htot Htrans. induction l as [|a l IH]; simpl; [reflexivity|].
  rewrite (filter_insert_sorted le p a (sort le l) Htrans
             (sort_sorted le Htot Htrans l)).
  rewrite IH. now destruct (p a).
Qed.

Lemma filter_filter {A : Type} (p q : A -> bool) (l : list A) :
  filter p (filter q l) = filter (fun a => q a && p a) l.
Proof.
  induction l as [|a l IH]; simpl; [reflexivity|].
  destruct (q a); simpl; [destruct (p a)|]; now rewrite IH.
Qed.

(** X4: for a [days] that is not 0, what [get_readings] returns with the
    window is what it returns without it, less the rows whose timestamp is
    below the cutoff in the order of text, the rows that remain staying in
    the order they had. *)
Theorem get_readings_window_of_all (db : database) (now : datetime)
    (patient_id days : Z) :
  days <> 0%Z ->
  let cutoff := strftime_date (sub_days now days) in
  get_readings db now patient_id (Some days)
  = filter (fun r => String.leb cutoff (r_timestamp r))
      (get_readings db now patient_id None).
Proof.
  intros Hd cutoff. unfold get_readings, truthy, days_of.
  destruct (Z.eqb_spec days 0); [contradiction|]. simpl.
  rewrite (filter_sort timestamp_desc _ _ timestamp_desc_total
             timestamp_desc_trans).
  now rewrite filter_filter.
Qed.

(** X5: [add_reading] is seen by [get_readings]: afterwards the readings
    of that patient are the ones before and the new row, whose id is the
    next of the counter; the readings of every other patient, with or
    without a window, are returned as before, and so are the patients and
    the goals. *)
Theorem add_reading_then_get_readings (db : database) (now : datetime)
    (patient_id : Z) (v : Q) (status condition timestamp : string) :
  let row := mk_reading (readings_seq db + 1) patient_id v status condition
               timestamp in
  exists db',
    add_reading db patient_id v status condition timestamp = Ok db' /\
    Permutation (get_readings db' now patient_id None)
      (row :: get_readings db now patient_id None) /\
    (forall other days, other <> patient_id ->
       get_readings db' now other days = get_readings db now other days) /\
    get_patients db' = get_patients db /\
    (forall p, get_goals db' p = get_goals db p).
Proof.
  intros row. eexists. split; [apply add_reading_appends|].
  split; [|split; [|split; reflexivity]].
  - unfold get_readings. simpl. rewrite filter_app. simpl.
    rewrite Z.eqb_refl.
    rewrite <- sort_perm. rewrite <- sort_perm.
    fold row. rewrite Permutation_app_comm. reflexivity.
  - intros other days Hne. unfold get_readings. simpl.
    rewrite !filter_app. simpl.
    destruct (Z.eqb_spec patient_id other) as [E|_]; [now subst|].
    simpl. now rewrite !app_nil_r.
Qed.

(** *** Goals *)

Lemma map_map_progress (gid : Z) (v1 v2 : Q) (a1 a2 : Z) (l : list goal) :
  map (fun g => if (g_id g =? gid)%Z then with_progress g v2 a2 else g)
    (map (fun g => if (g_id g =? gid)%Z then with_progress g v1 a1 else g) l)
  = map (fun g => if (g_id g =? gid)%Z then with_progress g v2 a2 else g) l.
Proof.
  rewrite map_map. apply map_ext. intros g.
  destruct (g_id g =? gid)%Z eqn:E; simpl; now rewrite E.
Qed.

(** X6: of two [update_goal_progress] on the same goal the later one
    alone counts; updates of different goals can be made in either order;
    an update for an id that no goal has changes nothing; and in a store
    built by the methods of the class an update changes one goal and no
    other. *)
Theorem update_goal_progress_composes :
  (forall db goal_id v1 a1 v2 a2,
     update_goal_progress (update_goal_progress db goal_id v1 a1)
       goal_id v2 a2
     = update_goal_progress db goal_id v2 a2) /\
  (forall db g1 g2 v1 a1 v2 a2, g1 <> g2 ->
     update_goal_progress (update_goal_progress db g1 v1 a1) g2 v2 a2
     = update_goal_progress (update_goal_progress db g2 v2 a2) g1 v1 a1) /\
  (forall db goal_id v a,
     existsb (fun g => (g_id g =? goal_id)%Z) (goals db) = false ->
     update_goal_progress db goal_id v a = db) /\
  (forall db goal_id v a g, Invariant.reachable db ->
     In g (goals db) -> g_id g = goal_id ->
     forall g', In g' (goals (update_goal_progress db goal_id v a)) <->
       g' = with_progress g v a \/ (In g' (goals db) /\ g_id g' <> goal_id)).
Proof.
  split; [|split; [|split]].
  - intros. unfold update_goal_progress. simpl.
    now rewrite map_map_progress.
  - intros db g1 g2 v1 a1 v2 a2 Hne. unfold update_goal_progress. simpl.
    f_equal. rewrite !map_map. apply map_ext. intros g.
    destruct (Z.eqb_spec (g_id g) g1) as [E1|N1];
      destruct (Z.eqb_spec (g_id g) g2) as [E2|N2]; simpl.
    + exfalso. congruence.
    + destruct (Z.eqb_spec (g_id g) g2); [contradiction|].
      destruct (Z.eqb_spec (g_id g) g1); [reflexivity|contradiction].
    + destruct (Z.eqb_spec (g_id g) g2); [|contradiction].
      destruct (Z.eqb_spec (g_id g) g1); [contradiction|reflexivity].
    + destruct (Z.eqb_spec (g_id g) g2); [contradiction|].
      destruct (Z.eqb_spec (g_id g) g1); [contradiction|reflexivity].
  - intros db gid v a Hnone. unfold update_goal_progress.
    rewrite (map_if_none (fun g => (g_id g =? gid)%Z)) by exact Hnone.
    now destruct db.
  - intros db gid v a g Hr Hin Hid g'.
    destruct (well_formed_reachable db Hr) as (_ & _ & [Hnd _] & _).
    simpl. rewrite in_map_iff. split.
    + intros [g0 [E Hin0]].
      destruct (Z.eqb_spec (g_id g0) gid) as [E0|N0].
      * left. subst g'. f_equal.
        clear - Hnd Hin Hin0 Hid E0.
        induction (goals db) as [|h l IH]; [contradiction|].
        simpl in Hnd. inversion Hnd as [|? ? Hnotin Hnd']; subst.
        destruct Hin as [<-|Hin], Hin0 as [<-|Hin0]; auto.
        -- exfalso. apply Hnotin. rewrite <- E0. now apply in_map.
        -- exfalso. apply Hnotin. rewrite E0. now apply in_map.
      * right. subst g'. now split.
    + intros [E|[Hin' Hne]].
      * exists g. split; [|exact Hin]. apply Z.eqb_eq in Hid. now rewrite Hid.
      * exists g'. split; [|exact Hin'].
        destruct (Z.eqb_spec (g_id g') gid); [contradiction|reflexivity].
Qed.

(** ** Colours *)

Import MainWindow.

(** X7: the colour that [load_patient_data] works out again from a stored
    status with [get_color_for_status] is the colour that [analyze] gave
    the reading when it was taken. *)
Theorem get_color_for_status_of_analyze (now : datetime) (v : Q) :
  get_color_for_status (status (analyze now v)) = color (analyze now v).
Proof.
  unfold analyze.
  destruct (Qltb v CRITICAL_LOW); [reflexivity|].
  destruct (Qltb v WARNING_LOW); [reflexivity|].
  destruct (Qleb v NORMAL_HIGH); [reflexivity|].
  destruct (Qleb v WARNING_HIGH); reflexivity.
Qed.

(** X8: the trend plot colours a point with its own thresholds, which put
    the lower critical bound at 50 where [analyze] has 54: the colour of
    the point is the colour of the classification for every value except
    those with [50 <= v < 54], which the plot shows in the colour of a
    warning although [analyze] calls them critical. *)
Theorem point_color_agrees_with_analyze (now : datetime) (v : Q) :
  (TrendPlotWidget.point_color v = color (analyze now v) <->
   ~ (50 <= v /\ v < 54)) /\
  (50 <= v /\ v < 54 ->
   TrendPlotWidget.point_color v = "#FFA500" /\
   color (analyze now v) = "#FF4444" /\
   severity (analyze now v) = "critical").
Proof.
  unfold TrendPlotWidget.point_color, analyze,
    CRITICAL_LOW, WARNING_LOW, NORMAL_HIGH, WARNING_HIGH.
  destruct (Qltb_spec v 50); destruct (Qltb_spec v 54);
    try (exfalso; qlra);
    destruct (Qltb_spec v 70); try (exfalso; qlra);
    destruct (Qleb_spec v 140); try (exfalso; qlra);
    destruct (Qltb_spec 140 v); try (exfalso; qlra);
    destruct (Qleb_spec v 180); try (exfalso; qlra);
    destruct (Qltb_spec 180 v); try (exfalso; qlra);
    simpl; (split; [split|]);
    try (intros; exfalso; qlra); try (intros _; reflexivity);
    try discriminate; try (intros _; intros [? ?]; qlra);
    try (intros; repeat split; reflexivity).
Qed.

(** ** The trend plot *)

Lemma tl_skipn_snoc {A : Type} (L : list A) (x : A) (k : nat) :
  (k < List.length L)%nat ->
  tl (skipn k L ++ [x]) = skipn (S k) (L ++ [x]).
Proof.
  intros Hk. rewrite skipn_app.
  replace (S k - List.length L)%nat with 0%nat by lia. simpl skipn at 3.
  replace (S k) with (1 + k)%nat by lia. rewrite <- skipn_skipn.
  destruct (skipn k L) as [|a l'] eqn:E; [|reflexivity].
  apply (f_equal (@List.length A)) in E. rewrite length_skipn in E.
  simpl in E. lia.
Qed.

Lemma last_n_step {A : Type} (L : list A) (x : A) :
  let n := List.length L in
  (if (20 <=? n)%nat then tl (Expected.last_n 20 L ++ [x])
   else (Expected.last_n 20 L ++ [x])%list)
  = Expected.last_n 20 (L ++ [x]).
Proof.
  unfold Expected.last_n. rewrite length_app.
  change (List.length [x]) with 1%nat. cbv zeta.
  destruct (Nat.leb_spec 20 (List.length L)) as [H|H].
  - rewrite tl_skipn_snoc by lia. f_equal. lia.
  - replace (List.length L - 20)%nat with 0%nat by lia.
    replace (List.length L + 1 - 20)%nat with 0%nat by lia. reflexivity.
Qed.

Lemma last_n_length {A : Type} (L : list A) :
  List.length (Expected.last_n 20 L) = Nat.min (List.length L) 20.
Proof. unfold Expected.last_n. rewrite length_skipn. lia. Qed.

Lemma x_coordinates_length (n : nat) :
  List.length (Expected.x_coordinates n) = n.
Proof.
  unfold Expected.x_coordinates.
  rewrite length_app, length_map, length_seq, repeat_length. lia.
Qed.

Lemma repeat_snoc {A : Type} (a : A) (n : nat) :
  (repeat a n ++ [a])%list = repeat a (S n).
Proof. induction n as [|n IH]; simpl; [reflexivity|]. now rewrite IH. Qed.

Lemma x_coordinates_step (n : nat) :
  Expected.x_coordinates (S n)
  = (Expected.x_coordinates n ++ [Z.of_nat (Nat.min n 20 + 1)])%list.
Proof.
  unfold Expected.x_coordinates.
  destruct (Nat.leb_spec 20 n) as [H|H].
  - replace (Nat.min (S n) 20) with 20%nat by lia.
    replace (Nat.min n 20) with 20%nat by lia.
    replace (S n - 20)%nat with (S (n - 20)) by lia.
    rewrite <- repeat_snoc, app_assoc. reflexivity.
  - replace (Nat.min (S n) 20) with (S n) by lia.
    replace (Nat.min n 20) with n by lia.
    replace (S n - 20)%nat with 0%nat by lia.
    replace (n - 20)%nat with 0%nat by lia.
    rewrite seq_S, map_app, !app_nil_r. simpl.
    do 3 f_equal. lia.
Qed.

Lemma trend_plot_state (l : list Q) :
  let w := fold_left TrendPlotWidget.add_reading l TrendPlotWidget.init in
  TrendPlotWidget.max_points w = 20%Z /\
  TrendPlotWidget.glucose_values w = Expected.last_n 20 l /\
  TrendPlotWidget.timestamps w
  = Expected.last_n 20 (Expected.x_coordinates (List.length l)).
Proof.
  induction l as [|x l IH] using rev_ind.
  - repeat split.
  - cbv zeta in *. rewrite fold_left_app. cbn [fold_left].
    destruct IH as (Hm & Hv & Ht). revert Hm Hv Ht.
    generalize (fold_left TrendPlotWidget.add_reading l TrendPlotWidget.init).
    intros [vals stamps mp]. cbn [TrendPlotWidget.max_points
      TrendPlotWidget.glucose_values TrendPlotWidget.timestamps].
    intros -> -> ->.
    unfold TrendPlotWidget.add_reading.
    cbn [TrendPlotWidget.max_points TrendPlotWidget.glucose_values
         TrendPlotWidget.timestamps].
    unfold TrendPlotWidget.len. rewrite length_app, last_n_length.
    change (List.length [x]) with 1%nat.
    pose proof (last_n_step l x) as Sv.
    pose proof (last_n_step (Expected.x_coordinates (List.length l))
                  (Z.of_nat (Nat.min (List.length l) 20 + 1))) as St.
    cbv zeta in Sv, St. rewrite x_coordinates_length in St.
    rewrite <- x_coordinates_step in St.
    rewrite length_app. change (List.length [x]) with 1%nat.
    replace (List.length l + 1)%nat with (S (List.length l)) by lia.
    destruct (Z.ltb_spec 20 (Z.of_nat (Nat.min (List.length l) 20 + 1)))
      as [H|H].
    + destruct (Nat.leb_spec 20 (List.length l)) as [H'|H']; [|lia].
      cbn [TrendPlotWidget.max_points TrendPlotWidget.glucose_values
           TrendPlotWidget.timestamps].
      rewrite Sv, St. repeat split.
    + destruct (Nat.leb_spec 20 (List.length l)) as [H'|H']; [lia|].
      cbn [TrendPlotWidget.max_points TrendPlotWidget.glucose_values
           TrendPlotWidget.timestamps].
      rewrite Sv, St. repeat split.
Qed.

(** X9: a trend plot that has been given the values [l] one after the
    other holds the last 20 of them, in that order, and as many x
    coordinates as values. *)
Theorem trend_plot_keeps_last_20 (l : list Q) :
  let w := fold_left TrendPlotWidget.add_reading l TrendPlotWidget.init in
  TrendPlotWidget.glucose_values w = Expected.last_n 20 l /\
  List.length (TrendPlotWidget.glucose_values w)
    = Nat.min (List.length l) 20 /\
  List.length (TrendPlotWidget.timestamps w)
    = List.length (TrendPlotWidget.glucose_values w).
Proof.
  intros w. destruct (trend_plot_state l) as (_ & Hv & Ht). fold w in Hv, Ht.
  rewrite Hv, Ht, !last_n_length, x_coordinates_length. repeat split.
Qed.

Lemma skipn_repeat {A : Type} (a : A) (k n : nat) :
  skipn k (repeat a n) = repeat a (n - k).
Proof.
  revert n. induction k as [|k IH]; intros n.
  - now rewrite Nat.sub_0_r.
  - destruct n as [|n]; simpl; [reflexivity|apply IH].
Qed.

(** X10: the x coordinate that [add_reading] gives a value is the length
    of the list after the value has been appended and before the oldest is
    dropped, which is the number of the reading up to the 20th and 21 ever
    after: up to 20 readings the x coordinates are 1 to [n], and from the
    40th reading on all twenty x coordinates are 21. *)
Theorem trend_plot_x_coordinates (l : list Q) :
  let n := List.length l in
  let w := fold_left TrendPlotWidget.add_reading l TrendPlotWidget.init in
  TrendPlotWidget.timestamps w
    = Expected.last_n 20 (Expected.x_coordinates n) /\
  ((n <= 20)%nat ->
   TrendPlotWidget.timestamps w = map Z.of_nat (seq 1 n)) /\
  ((40 <= n)%nat -> TrendPlotWidget.timestamps w = repeat 21%Z 20).
Proof.
  intros n w. destruct (trend_plot_state l) as (_ & _ & Ht).
  fold w n in Ht. split; [exact Ht|]. rewrite Ht.
  unfold Expected.last_n. rewrite x_coordinates_length.
  unfold Expected.x_coordinates. split; intros H.
  - replace (n - 20)%nat with 0%nat by lia.
    replace (Nat.min n 20) with n by lia. simpl. now rewrite app_nil_r.
  - replace (Nat.min n 20) with 20%nat by lia.
    rewrite skipn_app, length_map, length_seq.
    rewrite skipn_all2 by (rewrite length_map, length_seq; lia).
    rewrite skipn_repeat. cbn [app]. f_equal. lia.
Qed.

Lemma combine_fst {A B : Type} (l : list A) (l' : list B) :
  List.length l = List.length l' -> map fst (combine l l') = l.
Proof.
  revert l'. induction l as [|a l IH]; intros [|b l'] H; simpl in *;
    try discriminate; [reflexivity|]. f_equal. apply IH. lia.
Qed.

Lemma combine_snd {A B : Type} (l : list A) (l' : list B) :
  List.length l = List.length l' -> map snd (combine l l') = l'.
Proof.
  revert l'. induction l as [|a l IH]; intros [|b l'] H; simpl in *;
    try discriminate; [reflexivity|]. f_equal. apply IH. lia.
Qed.

(** X11: on a plot that has been given at least one value [update_plot]
    raises nothing and draws one point for each value it holds, at the x
    coordinate kept for it and in the colour of the value; the lower end
    of the y axis is never below 0, and every value that is not negative
    lies between the two ends of the axis. *)
Theorem update_plot_draws_every_value (x : Q) (l : list Q) :
  let w := fold_left TrendPlotWidget.add_reading (x :: l)
             TrendPlotWidget.init in
  exists p,
    TrendPlotWidget.update_plot w = Returns (Some p) /\
    map (fun pt => snd (fst pt)) (TrendPlotWidget.points p)
      = TrendPlotWidget.glucose_values w /\
    map (fun pt => fst (fst pt)) (TrendPlotWidget.points p)
      = TrendPlotWidget.timestamps w /\
    Forall (fun pt => snd pt = TrendPlotWidget.point_color (snd (fst pt)))
      (TrendPlotWidget.points p) /\
    0 <= fst (TrendPlotWidget.ylim p) /\
    Forall (fun v => v < snd (TrendPlotWidget.ylim p) /\
                     (0 <= v -> fst (TrendPlotWidget.ylim p) <= v))
      (TrendPlotWidget.glucose_values w).
Proof.
  intros w.
  destruct (trend_plot_state (x :: l)) as (_ & Hv & Ht). fold w in Hv, Ht.
  assert (Hlen : List.length (TrendPlotWidget.timestamps w)
                 = List.length (TrendPlotWidget.glucose_values w)).
  { rewrite Hv, Ht, !last_n_length, x_coordinates_length. reflexivity. }
  assert (Hne : List.length (TrendPlotWidget.glucose_values w) <> 0%nat).
  { rewrite Hv, last_n_length. simpl. lia. }
  unfold TrendPlotWidget.update_plot.
  destruct (TrendPlotWidget.glucose_values w) as [|v vs] eqn:Ev;
    [now destruct Hne|].
  unfold TrendPlotWidget.len. rewrite Hlen, Z.eqb_refl.
  unfold py_min, py_max, bind.
  destruct (fold_min_spec vs v) as [_ Hmin].
  destruct (fold_max_spec vs v) as [_ Hmax].
  eexists. split; [reflexivity|]. simpl TrendPlotWidget.points.
  simpl TrendPlotWidget.ylim. cbv zeta in Hmin, Hmax.
  set (lo := fold_left (fun m x0 => if Qltb x0 m then x0 else m) vs v) in *.
  set (hi := fold_left (fun m x0 => if Qltb m x0 then x0 else m) vs v) in *.
  split; [|split; [|split; [|split]]].
  - rewrite <- (combine_snd (TrendPlotWidget.timestamps w) (v :: vs) Hlen)
      at 2.
    rewrite map_map. reflexivity.
  - rewrite <- (combine_fst (TrendPlotWidget.timestamps w) (v :: vs) Hlen)
      at 2.
    rewrite map_map. reflexivity.
  - apply Forall_forall. intros pt Hpt. apply in_map_iff in Hpt.
    destruct Hpt as [q [<- _]]. reflexivity.
  - unfold TrendPlotWidget.max2. simpl.
    destruct (Qltb_spec 0 (lo - 20)); qlra.
  - rewrite Forall_forall in *. intros u Hu.
    specialize (Hmin u Hu). specialize (Hmax u Hu). simpl in Hmin, Hmax.
    unfold TrendPlotWidget.max2. simpl.
    destruct (Qltb_spec 0 (lo - 20)); split; intros; qlra.
Qed.

(** ** The aggregate: bounds *)

Lemma Qsum_bounds (lo hi : Q) (V : list Q) :
  Forall (fun v => lo <= v) V -> Forall (fun v => v <= hi) V ->
  lo * Qnat (List.length V) <= Qsum V /\
  Qsum V <= hi * Qnat (List.length V).
Proof.
  induction V as [|v V IH]; intros Hlo Hhi.
  - change (Qnat (List.length (@nil Q))) with 0. simpl Qsum. split; qlra.
  - inversion Hlo; inversion Hhi; subst.
    destruct IH as [IH1 IH2]; try assumption.
    change (List.length (v :: V)) with (S (List.length V)).
    rewrite Qnat_S. simpl Qsum. split; qlra.
Qed.

Lemma mean_bounds (lo hi : Q) (v : Q) (vs : list Q) :
  Forall (fun x => lo <= x) (v :: vs) -> Forall (fun x => x <= hi) (v :: vs) ->
  lo <= Spec.mean (v :: vs) /\ Spec.mean (v :: vs) <= hi.
Proof.
  intros Hlo Hhi. destruct (Qsum_bounds lo hi _ Hlo Hhi) as [H1 H2].
  unfold Spec.mean.
  change (List.length (v :: vs)) with (S (List.length vs)) in *.
  pose proof (Qnat_pos (List.length vs)) as Hpos.
  split; [apply Qle_shift_div_l|apply Qle_shift_div_r]; assumption.
Qed.

Lemma middle_bounds (lo hi : Q) (l : list Q) :
  l <> [] ->
  Forall (fun x => lo <= x) l -> Forall (fun x => x <= hi) l ->
  lo <= Spec.middle l /\ Spec.middle l <= hi.
Proof.
  intros Hne Hlo Hhi.
  assert (Hn : (0 < List.length l)%nat)
    by (destruct l; [contradiction|simpl; lia]).
  assert (Hnth : forall i, (i < List.length l)%nat ->
                           lo <= nth i l 0 /\ nth i l 0 <= hi).
  { intros i Hi. rewrite Forall_forall in Hlo, Hhi.
    pose proof (nth_In l 0 Hi) as Hin. split; auto. }
  pose proof (Nat.div_mod_eq (List.length l) 2) as Hdiv.
  pose proof (Nat.mod_upper_bound (List.length l) 2 ltac:(lia)) as Hmod.
  unfold Spec.middle.
  destruct (Nat.odd (List.length l)).
  - apply Hnth. lia.
  - destruct (Hnth (List.length l / 2 - 1)%nat ltac:(lia)) as [A1 A2].
    destruct (Hnth (List.length l / 2)%nat ltac:(lia)) as [B1 B2].
    split; [apply Qle_shift_div_l|apply Qle_shift_div_r]; qlra.
Qed.

Lemma count_if_Qnat_le {A : Type} (p : A -> bool) (l : list A) :
  0 <= Qnat (count_if p l) /\ Qnat (count_if p l) <= Qnat (List.length l).
Proof.
  pose proof (count_if_bound p l) as H. unfold Qnat, Qle. simpl. lia.
Qed.

(** X12: the aggregate of a list that is not empty is consistent in
    itself: the average and the median lie between [min] and [max], the
    range and the standard deviation are not negative, [time_in_range] is
    a percentage between 0 and 100, and [normal] is at most [count]. *)
Theorem statistics_within_bounds (r : reading) (rs : list reading) :
  exists s,
    calculate_statistics (r :: rs) = Returns (Some s) /\
    min s <= average s /\ average s <= max s /\
    min s <= median s /\ median s <= max s /\
    min s <= max s /\ 0 <= range s /\
    (0 <= std_dev s)%R /\
    0 <= time_in_range s /\ time_in_range s <= 100 /\
    (normal s <= count s)%nat.
Proof.
  eexists. split; [apply calculate_statistics_returns|].
  cbn [count average median std_dev min max range time_in_range normal].
  generalize (r_glucose_value r) (map r_glucose_value rs). intros v vs.
  destruct (fold_min_spec vs v) as [Hmin1 Hmin2].
  destruct (fold_max_spec vs v) as [Hmax1 Hmax2].
  cbv zeta in Hmin1, Hmin2, Hmax1, Hmax2.
  set (lo := fold_left (fun m x => if Qltb x m then x else m) vs v) in *.
  set (hi := fold_left (fun m x => if Qltb m x then x else m) vs v) in *.
  destruct (mean_bounds lo hi v vs Hmin2 Hmax2) as [M1 M2].
  pose proof (sort_perm Qleb (v :: vs)) as Hp.
  assert (Hne : sort Qleb (v :: vs) <> []).
  { intros E. apply (f_equal (@List.length Q)) in E.
    rewrite sort_length in E. discriminate. }
  destruct (middle_bounds lo hi (sort Qleb (v :: vs)) Hne
              (Permutation_Forall Hp Hmin2) (Permutation_Forall Hp Hmax2))
    as [D1 D2].
  assert (Hlh : lo <= hi).
  { rewrite Forall_forall in Hmax2. now apply Hmax2. }
  destruct (count_if_Qnat_le (fun x => Qleb 70 x && Qleb x 140) (v :: vs))
    as [C1 C2].
  change (List.length (v :: vs)) with (S (List.length vs)) in *.
  pose proof (Qnat_pos (List.length vs)) as Hpos.
  repeat split; try assumption.
  - qlra.
  - apply sqrt_pos.
  - apply Qmult_le_0_compat; [|qlra]. apply Qle_shift_div_l; qlra.
  - assert (Qnat (count_if (fun x => Qleb 70 x && Qleb x 140) (v :: vs))
            / Qnat (S (List.length vs)) <= 1)
      by (apply Qle_shift_div_r; qlra).
    qlra.
  - exact (count_if_bound (fun x => Qleb 70 x && Qleb x 140) (v :: vs)).
Qed.

(** ** The aggregate: when the spread is zero *)









(** ** The aggregate: time in range *)

Lemma count_if_all_iff {A : Type} (p : A -> bool) (l : list A) :
  count_if p l = List.length l <-> Forall (fun a => p a = true) l.
Proof.
  split; [|apply count_if_all].
  induction l as [|a l IH]; simpl; intros H; [constructor|].
  pose proof (count_if_bound p l).
  destruct (p a) eqn:E; [|lia]. constructor; [exact E|]. apply IH. lia.
Qed.

Lemma count_if_none_iff {A : Type} (p : A -> bool) (l : list A) :
  count_if p l = 0%nat <-> Forall (fun a => p a = false) l.
Proof.
  induction l as [|a l IH]; simpl.
  - split; [constructor|reflexivity].
  - destruct (p a) eqn:E.
    + split; [discriminate|]. intros H. inversion H; congruence.
    + rewrite IH. split; intros H; [now constructor|now inversion H].
Qed.

Lemma Forall_iff_ext {A : Type} (P P' : A -> Prop) (l : list A) :
  (forall a, P a <-> P' a) -> (Forall P l <-> Forall P' l).
Proof.
  intros H. split; apply Forall_impl; intros a; apply H.
Qed.

Lemma Qnat_inj (a b : nat) : Qnat a == Qnat b <-> a = b.
Proof.
  unfold Qnat, Qeq. simpl. lia.
Qed.

(** X14: [time_in_range] is 100 exactly when every value is within 70 and
    140, both included, and 0 exactly when none is. *)
Theorem time_in_range_extremes (r : reading) (rs : list reading) :
  let V := map r_glucose_value (r :: rs) in
  exists s,
    calculate_statistics (r :: rs) = Returns (Some s) /\
    (time_in_range s == 100 <->
     Forall (fun v => 70 <= v /\ v <= 140) V) /\
    (time_in_range s == 0 <->
     Forall (fun v => ~ (70 <= v /\ v <= 140)) V).
Proof.
  intros V. eexists. split; [apply calculate_statistics_returns|].
  cbn [time_in_range count normal]. unfold V. clear V. cbn [map].
  generalize (r_glucose_value r) (map r_glucose_value rs). intros v0 vs.
  assert (Hpos : 0 < Qnat (List.length (v0 :: vs))) by apply Qnat_pos.
  remember (v0 :: vs) as V eqn:EV. clear EV.
  set (p := fun v => Qleb 70 v && Qleb v 140).
  assert (Hp : forall v, p v = true <-> 70 <= v /\ v <= 140).
  { intros v. unfold p. now rewrite andb_true_iff, !Qleb_le. }
  assert (Hn : forall v, p v = false <-> ~ (70 <= v /\ v <= 140)).
  { intros v. rewrite <- Hp. destruct (p v); split; congruence. }
  rewrite <- (Forall_iff_ext _ _ V Hp), <- count_if_all_iff, <- Qnat_inj.
  rewrite <- (Forall_iff_ext _ _ V Hn), <- count_if_none_iff.
  rewrite <- (Qnat_inj _ 0). change (Qnat 0) with 0.
  clear Hp Hn. revert Hpos.
  generalize (Qnat (count_if p V)) (Qnat (List.length V)). intros c n Hpos.
  assert (E : c / n * 100 * n == 100 * c) by (field; qlra).
  remember (c / n * 100) as t eqn:Et.
  split; split; intros H.
  - rewrite H in E. qlra.
  - rewrite Et, H. field. qlra.
  - rewrite H in E. qlra.
  - rewrite Et, H. field. qlra.
Qed.

(** ** The aggregate: the order of the rows *)

Lemma Qsum_perm (l l' : list Q) : Permutation l l' -> Qsum l == Qsum l'.
Proof.
  induction 1 as [|x l l' _ IH|x y l|l l' l'' _ IH1 _ IH2]; simpl.
  - reflexivity.
  - now rewrite IH.
  - ring.
  - now rewrite IH1.
Qed.

Lemma Qsum_map_ext (f g : Q -> Q) (l : list Q) :
  (forall x, f x == g x) -> Qsum (map f l) == Qsum (map g l).
Proof.
  intros H. induction l as [|a l IH]; simpl; [reflexivity|].
  now rewrite IH, H.
Qed.

Lemma mean_perm (l l' : list Q) :
  Permutation l l' -> Spec.mean l == Spec.mean l'.
Proof.
  intros H. unfold Spec.mean.
  now rewrite (Qsum_perm _ _ H), (Permutation_length H).
Qed.

Lemma sample_variance_perm (l l' : list Q) :
  Permutation l l' -> Spec.sample_variance l == Spec.sample_variance l'.
Proof.
  intros H. unfold Spec.sample_variance.
  rewrite <- (Permutation_length H).
  destruct (List.length l =? 1)%nat; [reflexivity|].
  rewrite (Qsum_perm _ _ (Permutation_map _ H)).
  rewrite (Qsum_map_ext _ (fun v => (v - Spec.mean l') * (v - Spec.mean l'))).
  - reflexivity.
  - intros x. now rewrite (mean_perm _ _ H).
Qed.

Lemma sorted_count_lt (l : list Q) (i : nat) :
  StronglySorted Qle l -> (i < List.length l)%nat ->
  (count_if (fun v => Qltb v (nth i l 0%Q)) l <= i)%nat.
Proof.
  intros Hs. revert i.
  induction Hs as [|a l Hs IH Ha]; intros i Hi; simpl in Hi; [lia|].
  destruct i as [|i].
  - replace (count_if (fun v => Qltb v (nth 0 (a :: l) 0)) (a :: l))
      with 0%nat; [lia|].
    symmetry. apply count_if_none_iff. simpl. constructor.
    + destruct (Qltb_spec a a); [exfalso; qlra|reflexivity].
    + eapply Forall_impl; [|exact Ha]. intros b Hb. cbv beta in Hb.
      destruct (Qltb_spec b a); [exfalso; qlra|reflexivity].
  - assert (Hi' : (i < List.length l)%nat) by lia.
    specialize (IH i Hi'). simpl.
    destruct (Qltb a (nth i l 0)); lia.
Qed.

Lemma nth_sort_perm (l l' : list Q) (i : nat) :
  Permutation l l' -> (i < List.length l)%nat ->
  nth i (sort Qleb l) 0 == nth i (sort Qleb l') 0.
Proof.
  intros Hp Hi.
  assert (Hpp : Permutation (sort Qleb l) (sort Qleb l')).
  { rewrite <- (sort_perm Qleb l), <- (sort_perm Qleb l'). exact Hp. }
  assert (Hi1 : (i < List.length (sort Qleb l))%nat)
    by (now rewrite sort_length).
  assert (Hi2 : (i < List.length (sort Qleb l'))%nat)
    by (rewrite sort_length, <- (Permutation_length Hp); exact Hi).
  pose proof (sorted_count_le _ i (sort_Qle l) Hi1) as A1.
  pose proof (sorted_count_lt _ i (sort_Qle l) Hi1) as A2.
  pose proof (sorted_count_le _ i (sort_Qle l') Hi2) as B1.
  pose proof (sorted_count_lt _ i (sort_Qle l') Hi2) as B2.
  set (x := nth i (sort Qleb l) 0) in *.
  set (y := nth i (sort Qleb l') 0) in *.
  destruct (Qlt_le_dec x y) as [Hxy|Hyx].
  - exfalso.
    rewrite (count_if_perm _ _ _ Hpp) in A1.
    pose proof (count_if_le (fun v => Qleb v x) (fun v => Qltb v y)
                  (sort Qleb l')) as C.
    assert (count_if (fun v => Qleb v x) (sort Qleb l')
            <= count_if (fun v => Qltb v y) (sort Qleb l'))%nat.
    { apply C. intros a _. rewrite Qleb_le, Qltb_lt. intros. qlra. }
    lia.
  - destruct (Qlt_le_dec y x) as [Hlt|Hle]; [|qlra].
    exfalso.
    rewrite <- (count_if_perm _ _ _ Hpp) in B1.
    pose proof (count_if_le (fun v => Qleb v y) (fun v => Qltb v x)
                  (sort Qleb l)) as C.
    assert (count_if (fun v => Qleb v y) (sort Qleb l)
            <= count_if (fun v => Qltb v x) (sort Qleb l))%nat.
    { apply C. intros a _. rewrite Qleb_le, Qltb_lt. intros. qlra. }
    lia.
Qed.

Lemma middle_sort_perm (l l' : list Q) :
  Permutation l l' -> l <> [] ->
  Spec.middle (sort Qleb l) == Spec.middle (sort Qleb l').
Proof.
  intros Hp Hne. unfold Spec.middle.
  rewrite !sort_length, <- (Permutation_length Hp).
  assert (Hn : (0 < List.length l)%nat)
    by (destruct l; [contradiction|simpl; lia]).
  pose proof (Nat.div_mod_eq (List.length l) 2) as Hdiv.
  pose proof (Nat.mod_upper_bound (List.length l) 2 ltac:(lia)) as Hmod.
  destruct (Nat.odd (List.length l)).
  - apply nth_sort_perm; [exact Hp|lia].
  - rewrite (nth_sort_perm l l' (List.length l / 2 - 1) Hp) by lia.
    rewrite (nth_sort_perm l l' (List.length l / 2) Hp) by lia.
    reflexivity.
Qed.

Lemma extremes_perm (v v' : Q) (vs vs' : list Q) :
  Permutation (v :: vs) (v' :: vs') ->
  fold_left (fun m x => if Qltb x m then x else m) vs v
  == fold_left (fun m x => if Qltb x m then x else m) vs' v' /\
  fold_left (fun m x => if Qltb m x then x else m) vs v
  == fold_left (fun m x => if Qltb m x then x else m) vs' v'.
Proof.
  intros Hp.
  destruct (fold_min_spec vs v) as [A1 A2].
  destruct (fold_min_spec vs' v') as [B1 B2].
  destruct (fold_max_spec vs v) as [C1 C2].
  destruct (fold_max_spec vs' v') as [D1 D2].
  cbv zeta in *. rewrite Forall_forall in A2, B2, C2, D2.
  pose proof (A2 _ (Permutation_in _ (Permutation_sym Hp) B1)).
  pose proof (B2 _ (Permutation_in _ Hp A1)).
  pose proof (C2 _ (Permutation_in _ (Permutation_sym Hp) D1)).
  pose proof (D2 _ (Permutation_in _ Hp C1)).
  split; qlra.
Qed.

(** X15: the order of the rows does not matter to the aggregate: two
    lists with the same rows in different orders give the same count,
    average, median, standard deviation, minimum, maximum, range, time in
    range and bucket counts. *)
Theorem statistics_order_independent (r : reading) (rs rows' : list reading) :
  Permutation (r :: rs) rows' ->
  exists s s',
    calculate_statistics (r :: rs) = Returns (Some s) /\
    calculate_statistics rows' = Returns (Some s') /\
    count s = count s' /\
    average s == average s' /\
    median s == median s' /\
    std_dev s = std_dev s' /\
    min s == min s' /\ max s == max s' /\ range s == range s' /\
    time_in_range s == time_in_range s' /\
    critical_low s = critical_low s' /\ warning_low s = warning_low s' /\
    normal s = normal s' /\ warning_high s = warning_high s' /\
    critical_high s = critical_high s'.
Proof.
  intros Hp.
  destruct rows' as [|r' rs'];
    [now apply Permutation_sym, Permutation_nil_cons in Hp|].
  do 2 eexists.
  split; [apply calculate_statistics_returns|].
  split; [apply calculate_statistics_returns|].
  cbn [count average median std_dev min max range time_in_range
       critical_low warning_low normal warning_high critical_high].
  apply (Permutation_map r_glucose_value) in Hp. cbn [map] in Hp.
  revert Hp.
  generalize (r_glucose_value r) (map r_glucose_value rs)
    (r_glucose_value r') (map r_glucose_value rs').
  intros v vs v' vs' Hp.
  destruct (extremes_perm v v' vs vs' Hp) as [Hlo Hhi].
  pose proof (Permutation_length Hp) as Hlen.
  rewrite !(count_if_perm _ _ _ Hp).
  rewrite Hlo, Hhi, Hlen.
  repeat split; try reflexivity.
  - now apply mean_perm.
  - apply middle_sort_perm; [exact Hp|discriminate].
  - f_equal. apply Qeq_eqR. now apply sample_variance_perm.
Qed.

(** ** The window *)

Lemma find_none_names (db : database) (name : string) :
  get_patient_by_name db name = None ->
  forall p, In p (patients db) -> p_name p <> name.
Proof.
  intros Hnone p Hin E. apply (find_none _ _ Hnone) in Hin.
  simpl in Hin. rewrite E, String.eqb_refl in Hin. discriminate.
Qed.

Lemma add_patient_fresh (db : database) (now : datetime) (n : string)
    (age : Z) (ty : string) :
  (forall p, In p (patients db) -> p_name p <> n) ->
  let id := (patients_seq db + 1)%Z in
  let row := mk_patient id n age ty 70 140 (strftime_datetime now) in
  let db' := mk_database (patients db ++ [row]) (readings db) (goals db)
               id (readings_seq db) (goals_seq db) in
  add_patient db now n age ty = (db', Some id) /\
  get_patient_by_name db' n = Some row.
Proof.
  intros H id row db'.
  assert (Hf : name_taken db n = false).
  { destruct (name_taken db n) eqn:E; [|reflexivity].
    apply name_taken_iff in E. destruct E as [p [Hin Hp]].
    now destruct (H p Hin). }
  unfold add_patient, insert_patient. rewrite Hf. split; [reflexivity|].
  unfold get_patient_by_name. simpl. now apply find_app_fresh.
Qed.

(** X16: after [ensure_default_patient] a patient named "Default Patient"
    is stored and is the current patient; a store that already has one is
    left as it is; running the method again changes neither the store nor
    the current patient; and no patient, reading or goal is lost. *)
Theorem ensure_default_patient_idempotent (db : database)
    (now now' : datetime) :
  let st := ensure_default_patient db now in
  (exists p, get_patient_by_name (fst st) "Default Patient" = Some p /\
             snd st = Some (p_id p)) /\
  ensure_default_patient (fst st) now' = st /\
  (name_taken db "Default Patient" = true -> fst st = db) /\
  (forall p, In p (patients db) -> In p (patients (fst st))) /\
  readings (fst st) = readings db /\ goals (fst st) = goals db.
Proof.
  unfold ensure_default_patient.
  destruct (get_patient_by_name db "Default Patient") as [p|] eqn:F.
  - simpl. rewrite F. repeat split; auto. now exists p.
  - pose proof (find_none_names db _ F) as Hfresh.
    destruct (add_patient_fresh db now "Default Patient" 30%Z "Normal" Hfresh)
      as [E Hfind].
    cbv zeta in E, Hfind. rewrite E.
    cbn [fst snd]. rewrite Hfind.
    split; [eexists; split; reflexivity|].
    split; [reflexivity|].
    split.
    { intros Ht. exfalso. apply name_taken_iff in Ht.
      destruct Ht as [q [Hq Hn]]. now apply (Hfresh q). }
    split; [|split; reflexivity].
    intros q Hq. cbn [patients]. apply in_or_app. now left.
Qed.

(** *** The dashboard *)



(** *** Loading a patient *)

Lemma load_loop (l : list reading) (h : list entry)
    (t : TrendPlotWidget.state) :
  fold_left
    (fun v reading =>
       mk_view
         (history v
          ++ [mk_entry (r_glucose_value reading) (r_status reading)
                (r_timestamp reading)
                (get_color_for_status (r_status reading))])%list
         (TrendPlotWidget.add_reading (trend_plot v)
            (r_glucose_value reading)))
    l (mk_view h t)
  = mk_view
      (h ++ map (fun reading =>
                   mk_entry (r_glucose_value reading) (r_status reading)
                     (r_timestamp reading)
                     (get_color_for_status (r_status reading))) l)%list
      (fold_left TrendPlotWidget.add_reading (map r_glucose_value l) t).
Proof.
  revert h t. induction l as [|r l IH]; intros h t; simpl.
  - now rewrite app_nil_r.
  - rewrite IH. cbn [history trend_plot]. now rewrite <- app_assoc.
Qed.

Lemma last_n_rev {A : Type} (l : list A) :
  Expected.last_n 20 (rev l) = rev (firstn 20 l).
Proof.
  unfold Expected.last_n. rewrite length_rev, skipn_rev. f_equal.
  destruct (Nat.leb_spec 20 (List.length l)) as [H|H].
  - f_equal. lia.
  - replace (List.length l - (List.length l - 20))%nat
      with (List.length l) by lia.
    now rewrite !firstn_all2 by lia.
Qed.

(** X18: on a store whose rows hold numbers with their statuses,
    [load_patient_data] fills the history with the readings of the current
    patient, oldest first, each with the colour of its stored status, and
    leaves the trend plot with the values of the patient's 20 newest
    readings, oldest first; what the history and the plot held before is
    gone.  Without a current patient, or before the window is built, it
    changes nothing. *)
Theorem load_patient_data_shows_newest (db : database) (now : datetime)
    (id : Z) (v : view) :
  Invariant.statuses_ok db ->
  id <> 0%Z ->
  TrendPlotWidget.max_points (trend_plot v) = 20%Z ->
  let v' := load_patient_data db now (Some id) true v in
  let all := get_readings db now id None in
  history v'
    = map (fun r => mk_entry (r_glucose_value r) (r_status r)
                      (r_timestamp r) (get_color_for_status (r_status r)))
        (rev all) /\
  TrendPlotWidget.glucose_values (trend_plot v')
    = map r_glucose_value (rev (firstn 20 all)) /\
  load_patient_data db now None true v = v /\
  load_patient_data db now (Some 0%Z) true v = v /\
  load_patient_data db now (Some id) false v = v.
Proof.
  intros _ Hid Hmax v' all.
  assert (E : v' = mk_view
            (map (fun r => mk_entry (r_glucose_value r) (r_status r)
                             (r_timestamp r)
                             (get_color_for_status (r_status r))) (rev all))
            (fold_left TrendPlotWidget.add_reading
               (map r_glucose_value (rev all)) TrendPlotWidget.init)).
  { unfold v', load_patient_data, no_patient, id_of.
    destruct (Z.eqb_spec id 0); [contradiction|]. cbn [negb].
    fold all. rewrite load_loop. cbn [app].
    unfold TrendPlotWidget.clear_plot. rewrite Hmax. reflexivity. }
  rewrite E. cbn [history trend_plot].
  split; [reflexivity|]. split; [|split; [|split]].
  - destruct (trend_plot_state (map r_glucose_value (rev all)))
      as (_ & Hv & _).
    rewrite Hv, map_rev, last_n_rev, firstn_map, <- map_rev. reflexivity.
  - reflexivity.
  - reflexivity.
  - unfold load_patient_data, no_patient.
    now destruct (id =? 0)%Z.
Qed.

(** *** Taking a reading *)

Lemma analyze_status_now (now now' : datetime) (v : Q) :
  status (analyze now v) = status (analyze now' v) /\
  alarm (analyze now v) = alarm (analyze now' v).
Proof.
  unfold analyze.
  destruct (Qltb v CRITICAL_LOW); [now split|].
  destruct (Qltb v WARNING_LOW); [now split|].
  destruct (Qleb v NORMAL_HIGH); [now split|].
  destruct (Qleb v WARNING_HIGH); now split.
Qed.



Lemma statuses_ok_analyze_glucose (db db' : database) (now : datetime)
    (current_patient_id : Z) (plot plot' : TrendPlotWidget.state)
    (text : glucose_text) (condition : string) (r : result) (a : bool) :
  statuses_ok db ->
  analyze_glucose db now current_patient_id plot text condition
    = Analyzed db' r plot' a ->
  statuses_ok db'.
Proof.
  intros Hok E. destruct text as [| |v| |]; try discriminate.
  unfold analyze_glucose in E.
  destruct (Qltb_spec v 0); [discriminate|].
  destruct (Qltb_spec 1000 v); [discriminate|]. cbn [orb] in E.
  rewrite add_reading_appends in E. injection E as <- _ _ _.
  intros x now' Hin. cbn [readings] in Hin.
  apply in_app_or in Hin. destruct Hin as [Hin|[<-|[]]].
  - now apply Hok.
  - cbn [r_status r_glucose_value].
    split; [apply analyze_status_now|]. split; qlra.
Qed.


(** *** Stored statuses and the buckets *)

Lemma count_if_map {A B : Type} (f : A -> B) (p : B -> bool) (l : list A) :
  count_if p (map f l) = count_if (fun a => p (f a)) l.
Proof.
  induction l as [|a l IH]; simpl; [reflexivity|]. now rewrite IH.
Qed.

(** X20: in a store whose statuses are in line with the values, as the
    stores that [analyze_glucose] fills from numbers are, each bucket of the
    aggregate
    of what [get_readings] returns is the number of returned rows that carry
    the status of the bucket. *)
Theorem buckets_count_stored_statuses (db : database) (now : datetime)
    (patient_id : Z) (days : option Z) :
  Invariant.statuses_ok db ->
  let rows := get_readings db now patient_id days in
  let stored (st : string) :=
    count_if (fun r => (r_status r =? st)%string) rows in
  rows = [] \/
  exists s,
    calculate_statistics rows = Returns (Some s) /\
    critical_low s = stored "CRITICAL LOW" /\
    warning_low s = stored "WARNING LOW" /\
    normal s = stored "NORMAL" /\
    warning_high s = stored "WARNING HIGH" /\
    critical_high s = stored "CRITICAL HIGH".
Proof.
  intros Hok rows stored.
  assert (Hrows : forall r, In r rows ->
            r_status r = status (analyze now (r_glucose_value r))).
  { intros r Hin. apply Hok.
    unfold rows, get_readings in Hin.
    destruct (truthy days);
      apply (Permutation_in _ (Permutation_sym (sort_perm _ _))) in Hin;
      now apply filter_In in Hin. }
  destruct rows as [|r rs] eqn:E; [now left|]. right.
  eexists. split; [apply calculate_statistics_returns|].
  cbn [critical_low warning_low normal warning_high critical_high].
  change (r_glucose_value r :: map r_glucose_value rs)
    with (map r_glucose_value (r :: rs)).
  unfold stored. rewrite !count_if_map.
  repeat split; apply count_if_ext; intros x Hx;
    rewrite (Hrows x Hx);
    destruct (bucket_is_status now (r_glucose_value x))
      as (E1 & E2 & E3 & E4 & E5); assumption.
Qed.

(** ** Instances of the further properties *)

Lemma two_patients_reachable : Invariant.reachable Samples.two_patients.
Proof.
  exact (Invariant.reach_add_patient _ Examples.now0 "Bob" 52%Z "Type 2"
           (Invariant.reach_add_patient _ Examples.now0 "Alice" 30%Z "Type 1"
              Invariant.reach_init)).
Defined.

(** With Alice and Bob stored, the ids 1 and 2 are taken and a third
    patient gets neither. *)
Lemma reachable_ids_fresh_witness :
  NoDup (map p_id (patients Samples.two_patients)) /\
  forall now name age ty id,
    snd (add_patient Samples.two_patients now name age ty) = Some id ->
    ~ In id (map p_id (patients Samples.two_patients)) /\ id <> 0%Z.
Proof.
  destruct (reachable_ids_fresh Samples.two_patients two_patients_reachable)
    as (H1 & _ & _ & _ & H5).
  split; [exact H1|exact H5].
Defined.

(** Bob is found under his name. *)
Lemma reachable_names_unique_witness :
  get_patient_by_name Samples.two_patients "Bob"
  = Some (mk_patient 2 "Bob" 52 "Type 2" 70 140 "2024-03-15 09:05:07").
Proof.
  refine (proj1 (proj2 (reachable_names_unique Samples.two_patients
                          two_patients_reachable))
            (mk_patient 2 "Bob" 52 "Type 2" 70 140 "2024-03-15 09:05:07") _).
  right. left. reflexivity.
Defined.

(** The window of 30 days on the sample store. *)
Lemma get_readings_window_of_all_witness :
  get_readings Examples.window_db Examples.now0 1 (Some 30%Z)
  = filter (fun r => String.leb
                       (strftime_date (sub_days Examples.now0 30))
                       (r_timestamp r))
      (get_readings Examples.window_db Examples.now0 1 None).
Proof.
  refine (get_readings_window_of_all Examples.window_db Examples.now0 1 30 _).
  discriminate.
Defined.

(** Two rows in either order. *)
Lemma statistics_order_independent_witness :
  exists s s',
    calculate_statistics [Samples.low_row; Samples.high_row]
      = Returns (Some s) /\
    calculate_statistics [Samples.high_row; Samples.low_row]
      = Returns (Some s') /\
    average s == average s' /\ median s == median s' /\ min s == min s'.
Proof.
  destruct (statistics_order_independent Samples.low_row [Samples.high_row]
              [Samples.high_row; Samples.low_row]
              (perm_swap Samples.high_row Samples.low_row []))
    as (s & s' & H1 & H2 & _ & Ha & Hm & _ & Hmin & _).
  exists s, s'. repeat split; assumption.
Defined.

Lemma window_db_statuses_ok : Invariant.statuses_ok Examples.window_db.
Proof.
  intros r now [<-|[<-|[]]]; (split; [reflexivity|split; discriminate]).
Defined.

(** Loading patient 1 of the sample store into an empty window. *)
Lemma load_patient_data_shows_newest_witness :
  TrendPlotWidget.glucose_values
    (trend_plot (load_patient_data Examples.window_db Examples.now0
                   (Some 1%Z) true Samples.empty_view))
  = map r_glucose_value
      (rev (firstn 20 (get_readings Examples.window_db Examples.now0 1
                         None))).
Proof.
  refine (proj1 (proj2 (load_patient_data_shows_newest Examples.window_db
                          Examples.now0 1 Samples.empty_view _ _ _))).
  - exact window_db_statuses_ok.
  - discriminate.
  - reflexivity.
Defined.

Lemma taken_db_statuses_ok : Invariant.statuses_ok Samples.taken_db.
Proof.
  refine (statuses_ok_analyze_glucose Examples.alice_db Samples.taken_db
            Examples.now0 1 TrendPlotWidget.init
            (TrendPlotWidget.add_reading TrendPlotWidget.init 150)
            (Number 150) "After Meal" (analyze Examples.now0 150) true _ _).
  - intros r now [].
  - reflexivity.
Defined.

(** The store after one reading of 150 has been taken. *)
Lemma buckets_count_stored_statuses_witness :
  get_readings Samples.taken_db Examples.now0 1 None = [] \/
  exists s,
    calculate_statistics (get_readings Samples.taken_db Examples.now0 1 None)
      = Returns (Some s) /\
    warning_high s
    = count_if (fun r => (r_status r =? "WARNING HIGH")%string)
        (get_readings Samples.taken_db Examples.now0 1 None).
Proof.
  destruct (buckets_count_stored_statuses Samples.taken_db Examples.now0 1
              None taken_db_statuses_ok) as [E|(s & H1 & _ & _ & _ & H4 & _)].
  - left. exact E.
  - right. exists s. split; [exact H1|exact H4].
Defined.

